(** * geoip-updater: the MaxMind download pipeline (pkg/maxmind/download.go)

    A shallow embedding of [Downloader.Download] and of the three steps it
    sequences ([expectedHash], [downloadArchive], [extractArchive]), over an
    explicit model of the world the Go code acts on: the files on disk, the
    remote HTTP endpoint, the failures the operating system may report, and
    the trace of calls the code makes. *)

From Stdlib Require Import ZArith String Ascii List Lia.
From stdpp Require Import base option strings list gmap pretty.

Local Open Scope Z_scope.

(** ** Go values *)

Abbreviation bytes := (list Byte.byte).

(** A Go function returning [(T, error)]: a value, or the error's message. *)
Inductive Res (A : Type) : Type :=
| Ok (a : A)
| Err (e : string).
Arguments Ok {A} a.
Arguments Err {A} e.

Definition is_ok {A} (r : Res A) : bool :=
  match r with Ok _ => true | Err _ => false end.

(** [errors.Wrap(err, msg)]: the message [msg: err]. *)
Definition Wrap (e msg : string) : string := msg +:+ ": " +:+ e.

(** ** HTTP *)

Record Request := mkRequest {
  req_method : string;
  req_url : string;
  req_query : list (string * string);
  req_user_agent : option string
}.

(** [res.Body] is an [io.ReadCloser]. Reading it yields [body_data] and then
    either EOF or the error [body_err]. [body_repr] is what [fmt] prints for
    the reader value itself under the verb [%s]: the reader is neither a
    string, an [error] nor a [Stringer], so [fmt] prints the fields of the
    struct behind it and does not read from it. *)
Record Body := mkBody {
  body_repr : string;
  body_data : bytes;
  body_err : option string
}.

Inductive HttpResult :=
| HttpErr (e : string)
| HttpResp (status : Z) (body : Body).

Definition StatusOK : Z := 200.

(** ** Archive entries ([archiver.File], which embeds [os.FileInfo]) *)

Record Entry := mkEntry {
  f_header : string;          (* name of the entry inside the archive *)
  f_Name : string;            (* f.Name(): the base name *)
  f_IsDir : bool;
  f_Size : Z;
  f_ModTime : Z;
  f_data : bytes;             (* what reading the entry yields ... *)
  f_readerr : option string   (* ... followed by EOF or by this error *)
}.

(** ** The operating system *)

Inductive IoOp :=
| OpStat (p : string)
| OpRead (p : string)
| OpCreate (p : string)
| OpWrite (p : string)
| OpChtimes (p : string).

Inductive Level := Debug | Info | Warn.

Inductive Event :=
| EvSys (op : IoOp)
| EvHttp (r : Request)
| EvLog (lvl : Level) (fields : list (string * string)) (msg : string).

(** The world: file contents, the modification times set through
    [os.Chtimes], the remote endpoint, the failures the system reports
    ([faults w t op] is the error of system call [op] when it is the [t]-th
    call), the number of system calls made so far and the trace of calls. *)
Record World := mkWorld {
  fs_data : gmap string bytes;
  fs_mtime : gmap string Z;
  remote : Request -> HttpResult;
  faults : nat -> IoOp -> option string;
  ticks : nat;
  trace : list Event
}.

Definition set_data (f : gmap string bytes -> gmap string bytes) (w : World) : World :=
  mkWorld (f (fs_data w)) (fs_mtime w) (remote w) (faults w) (ticks w) (trace w).

Definition set_mtime (f : gmap string Z -> gmap string Z) (w : World) : World :=
  mkWorld (fs_data w) (f (fs_mtime w)) (remote w) (faults w) (ticks w) (trace w).

Definition record (e : Event) (w : World) : World :=
  mkWorld (fs_data w) (fs_mtime w) (remote w) (faults w) (ticks w) (trace w ++ [e]).

Definition tick (w : World) : World :=
  mkWorld (fs_data w) (fs_mtime w) (remote w) (faults w) (S (ticks w)) (trace w).

(** ** The monad of the embedding: state passing with Go's error returns.
    The world is returned on failure too: what was written stays written. *)

Definition M (A : Type) : Type := World -> Res A * World.

Definition ret {A} (a : A) : M A := fun w => (Ok a, w).
Definition fail {A} (e : string) : M A := fun w => (Err e, w).
Definition bind {A B} (m : M A) (k : A -> M B) : M B :=
  fun w => match m w with
           | (Ok a, w') => k a w'
           | (Err e, w') => (Err e, w')
           end.

(** [if err != nil { return errors.Wrap(err, msg) }] *)
Definition wrapping {A} (msg : string) (m : M A) : M A :=
  fun w => match m w with
           | (Ok a, w') => (Ok a, w')
           | (Err e, w') => (Err (Wrap e msg), w')
           end.

Declare Scope go_scope.
Delimit Scope go_scope with go.
Notation "x <- m ;; k" := (bind m (fun x => k))
  (at level 100, m at next level, right associativity) : go_scope.
Notation "m ;;; k" := (bind m (fun _ => k))
  (at level 100, right associativity) : go_scope.
Local Open Scope go_scope.

(** One system call: it is recorded, the call counter advances, and the
    world says whether it fails. *)
Definition syscall (op : IoOp) : M unit :=
  fun w => let w' := tick (record (EvSys op) w) in
           match faults w (ticks w) op with
           | Some e => (Err e, w')
           | None => (Ok tt, w')
           end.

Definition log (lvl : Level) (fields : list (string * string)) (msg : string) : M unit :=
  fun w => (Ok tt, record (EvLog lvl fields msg) w).

(** [os.Stat], as far as the pipeline looks at its result. *)
Inductive StatRes := StatOk | StatNotExist | StatErr (e : string).

Definition os_Stat (p : string) : World -> StatRes * World :=
  fun w => match syscall (OpStat p) w with
           | (Err e, w') => (StatErr e, w')
           | (Ok _, w') => (if fs_data w !! p is Some _ then StatOk else StatNotExist, w')
           end.

Definition not_exist (p : string) : string := "open " +:+ p +:+ ": no such file or directory".

(** [ioutil.ReadFile] *)
Definition os_ReadFile (p : string) : M bytes :=
  syscall (OpRead p) ;;;
  fun w => match fs_data w !! p with
           | Some c => (Ok c, w)
           | None => (Err (not_exist p), w)
           end.

(** [os.Create]: creates the file or truncates it. *)
Definition os_Create (p : string) : M unit :=
  syscall (OpCreate p) ;;;
  fun w => (Ok tt, set_data (insert p []) w).

(** Writing [data] at the end of the open file [p]. *)
Definition file_Write (p : string) (data : bytes) : M unit :=
  syscall (OpWrite p) ;;;
  fun w => (Ok tt, set_data (insert p (default [] (fs_data w !! p) ++ data)) w).

(** [io.Copy(file, reader)]: what the reader yields is written, then the
    reader's error, if any, is returned. *)
Definition io_Copy (p : string) (data : bytes) (rerr : option string) : M unit :=
  file_Write p data ;;;
  match rerr with
  | Some e => fail e
  | None => ret tt
  end.

(** [os.Chtimes] *)
Definition os_Chtimes (p : string) (t : Z) : M unit :=
  syscall (OpChtimes p) ;;;
  fun w => match fs_data w !! p with
           | Some _ => (Ok tt, set_mtime (insert p t) w)
           | None => (Err (not_exist p), w)
           end.

(** [d.http.Do(req)] *)
Definition http_Do (req : Request) : World -> HttpResult * World :=
  fun w => (remote w req, record (EvHttp req) w).

(** [filepath.Ext]: the suffix from the last dot of the last path element.
    [Ext_scan] is the backward loop of the Go code read forwards: the
    characters after the current one decide first. *)
Fixpoint Ext_scan (s : string) : option string :=
  match s with
  | EmptyString => None
  | String c s' =>
      match Ext_scan s' with
      | Some r => Some r
      | None => if Ascii.eqb c "." then Some s
                else if Ascii.eqb c "/" then Some ""
                else None
      end
  end.

Definition Ext (path : string) : string := default "" (Ext_scan path).

(** ** What the pipeline takes from outside download.go *)

(** Library functions the code calls and whose results it only passes on.
    [archiver_open name content] is how [archiver.Walk] reads the archive
    file: the entries it yields in walk order, and the error it stops on
    after them, if any; [Err] when the file cannot be opened as an archive. *)
Class Externals := {
  md5sum : bytes -> string;                       (* the digest behind checksumFromFile / checksumFromReader *)
  path_Join : string -> string -> string;         (* path.Join *)
  filepath_Base : string -> string;               (* filepath.Base *)
  NewRequest_error : string -> option string;     (* http.NewRequest rejecting the URL *)
  archiver_open : string -> bytes -> Res (list Entry * option string);
  archiver_walking : Entry -> string -> string;   (* how Walk reports the callback's error *)
  HumanSize : Z -> string;                        (* units.HumanSize *)
  format_time : Z -> string                       (* zerolog's rendering of a time *)
}.

(** Modelled from the spec: [EditionID] is declared outside download.go; the
    pipeline uses its query-string identifier [String()], the archive suffix
    [Suffix().String()] and the canonical file name [Filename()]. *)
Record EditionID := mkEditionID {
  eid_String : string;
  eid_Suffix : string;
  eid_Filename : string
}.

(** Modelled from the spec: [Client] is declared outside download.go; it
    supplies the base URL, the license key, the user agent and the working
    directory (its HTTP transport and logger are part of the [World]). *)
Record Client := mkClient {
  baseURL : string;
  licenseKey : string;
  userAgent : string;
  workDir : string
}.

Record Downloader := mkDownloader {
  client : Client;
  eid : EditionID;
  dlDir : string
}.

Section Pipeline.
Context `{Externals}.

(** Modelled from the spec: [checksumFromFile] (4.1a) reads the whole file
    and returns its digest; I/O failures are propagated. *)
Definition checksumFromFile (p : string) : M string :=
  c <- os_ReadFile p ;; ret (md5sum c).

(** Modelled from the spec: [checksumFromReader] (4.1b) consumes the entry's
    stream and returns its digest with a replayable reader over the bytes. *)
Definition checksumFromReader (f : Entry) : M (string * bytes) :=
  match f_readerr f with
  | Some e => fail e
  | None => ret (md5sum (f_data f), f_data f)
  end.

(** Modelled from the spec: [createFile name content] creates or truncates
    the file and writes [content] to it. *)
Definition createFile (name content : string) : M unit :=
  os_Create name ;;; file_Write name (list_byte_of_string content).

(** Modelled from the spec: [fileExists] tells whether a file exists at the
    path. *)
Definition fileExists (p : string) : M bool :=
  fun w => match os_Stat p w with
           | (StatOk, w') => (Ok true, w')
           | (_, w') => (Ok false, w')
           end.

(** The request both [expectedHash] (lines 81-94) and [downloadArchive]
    (lines 147-160) build; they differ in the [suffix] parameter only. *)
Definition geoip_url (d : Downloader) : string :=
  baseURL (client d) +:+ "/app/geoip_download".

Definition geoip_query (d : Downloader) (suffix : string) : Request :=
  mkRequest "GET" (geoip_url d)
    [("license_key", licenseKey (client d));
     ("edition_id", eid_String (eid d));
     ("suffix", suffix)]
    (if String.eqb (userAgent (client d)) "" then None
     else Some (userAgent (client d))).

Definition geoip_request (d : Downloader) (suffix : string) : M Request :=
  match NewRequest_error (geoip_url d) with
  | Some e => fail (Wrap e "Request failed")
  | None => ret (geoip_query d suffix)
  end.

(** [errors.Errorf("Received invalid status code %d: %s", res.StatusCode, res.Body)] *)
Definition invalid_status (status : Z) (body : Body) : string :=
  "Received invalid status code " +:+ pretty status +:+ ": " +:+ body_repr body.

(** [ioutil.ReadAll(res.Body)] *)
Definition ReadAll (body : Body) : M bytes :=
  match body_err body with
  | Some e => fail e
  | None => ret (body_data body)
  end.

Definition expectedHash (d : Downloader) : M string :=
  req <- geoip_request d (eid_Suffix (eid d) +:+ ".md5") ;;
  fun w =>
    match http_Do req w with
    | (HttpErr e, w1) => (Err e, w1)
    | (HttpResp status body, w1) =>
        if negb (status =? StatusOK) then (Err (invalid_status status body), w1)
        else (md5 <- wrapping "Cannot download MD5 file" (ReadAll body) ;;
              ret (string_of_list_byte md5)) w1
    end.

Definition md5file_of (d : Downloader) : string :=
  path_Join (workDir (client d)) ("." +:+ eid_Filename (eid d) +:+ "." +:+ "md5").

Definition archive_of (d : Downloader) : string :=
  path_Join (workDir (client d)) (eid_Filename (eid d)).

Definition currentHash (d : Downloader) : M string :=
  let md5file := md5file_of d in
  fun w =>
    match os_Stat md5file w with
    | (StatNotExist, w1) => (Ok "", w1)
    | (StatErr e, w1) => (Err e, w1)
    | (StatOk, w1) =>
        (curHash <- wrapping "Cannot read current archive hash" (os_ReadFile md5file) ;;
         ret (string_of_list_byte curHash)) w1
    end.

Definition mismatch (curHash expHash : string) : string :=
  "MD5 of downloaded archive (" +:+ curHash +:+ ") does not match expected md5 (" +:+ expHash +:+ ")".

(** Lines 143-192: the transfer, once the archive on disk was not accepted. *)
Definition fetchArchive (d : Downloader) (expHash archive : string) : M unit :=
  log Info [("edition_id", eid_String (eid d))]
    ("Downloading " +:+ filepath_Base archive +:+ " archive...") ;;;
  req <- geoip_request d (eid_Suffix (eid d)) ;;
  fun w =>
    match http_Do req w with
    | (HttpErr e, w1) => (Err e, w1)
    | (HttpResp status body, w1) =>
        if negb (status =? StatusOK) then (Err (invalid_status status body), w1)
        else (wrapping "Cannot create archive file" (os_Create archive) ;;;
              wrapping "Cannot download archive"
                (io_Copy archive (body_data body) (body_err body)) ;;;
              curHash <- wrapping "Cannot get archive checksum" (checksumFromFile archive) ;;
              if negb (String.eqb expHash curHash) then fail (mismatch curHash expHash)
              else ret tt) w1
    end.

Definition downloadArchive (d : Downloader) (expHash archive : string) : M unit :=
  fun w =>
    match os_Stat archive w with
    | (StatOk, w1) =>
        (curHash <- wrapping "Cannot get archive checksum" (checksumFromFile archive) ;;
         if String.eqb expHash curHash then
           log Debug [("edition_id", eid_String (eid d)); ("hash", expHash)]
             "Archive already downloaded and valid. Skipping download"
         else fetchArchive d expHash archive) w1
    | (_, w1) => fetchArchive d expHash archive w1
    end.

(** [archiver.Walk]: the callback is run on the entries in walk order, and
    the walk stops at the first error. [s] is the state the callback
    closes over. *)
Fixpoint walk_files {S} (fn : Entry -> S -> M S) (files : list Entry) (s : S)
    : World -> (S * option string) * World :=
  fun w =>
    match files with
    | [] => ((s, None), w)
    | f :: rest =>
        match fn f s w with
        | (Ok s', w') => walk_files fn rest s' w'
        | (Err e, w') => ((s, Some (archiver_walking f e)), w')
        end
    end.

Definition archiver_Walk {S} (archive : string) (fn : Entry -> S -> M S) (s : S)
    : World -> (S * option string) * World :=
  fun w =>
    match os_ReadFile archive w with
    | (Err e, w1) => ((s, Some e), w1)
    | (Ok content, w1) =>
        match archiver_open archive content with
        | Err e => ((s, Some e), w1)
        | Ok (files, stop) =>
            match walk_files fn files s w1 with
            | ((s', Some e), w2) => ((s', Some e), w2)
            | ((s', None), w2) => ((s', stop), w2)
            end
        end
    end.

(** [if err := m; err != nil { ... }] without a return: the error is kept
    as a value. *)
Definition try {A} (m : M A) : M (Res A) :=
  fun w => let (r, w') := m w in (Ok r, w').

Definition sublog (d : Downloader) (f : Entry) (expHash : string) : list (string * string) :=
  [("edition_id", eid_String (eid d));
   ("db_name", f_Name f);
   ("db_size", HumanSize (f_Size f));
   ("db_modtime", format_time (f_ModTime f));
   ("db_hash", expHash)].

(** Lines 230-247: the entry is written out. *)
Definition extractEntry (d : Downloader) (f : Entry) (fields : list (string * string))
    (dbpath : string) (reader : bytes) (dbs : list Entry) : M (list Entry) :=
  log Debug fields "Extracting database" ;;;
  wrapping ("Cannot create database file " +:+ f_Name f) (os_Create dbpath) ;;;
  wrapping ("Cannot extract database file " +:+ f_Name f) (io_Copy dbpath reader None) ;;;
  r <- try (os_Chtimes dbpath (f_ModTime f)) ;;
  match r with
  | Err e => log Warn (fields ++ [("error", e)]) "Cannot preserve modtime of database file"
  | Ok _ => ret tt
  end ;;;
  ret (dbs ++ [f]).

(** The callback of lines 197-248; [dbs] is the slice it appends to. *)
Definition walkFn (d : Downloader) (f : Entry) (dbs : list Entry) : M (list Entry) :=
  if f_IsDir f then ret dbs
  else if negb (String.eqb (Ext (f_Name f)) ".csv") && negb (String.eqb (Ext (f_Name f)) ".mmdb")
  then ret dbs
  else
    hr <- checksumFromReader f ;;
    let expHash := fst hr in
    let reader := snd hr in
    let fields := sublog d f expHash in
    let dbpath := path_Join (dlDir d) (f_Name f) in
    present <- fileExists dbpath ;;
    if present then
      curHash <- checksumFromFile dbpath ;;
      if String.eqb expHash curHash then
        log Debug fields "Database is already up to date" ;;; ret dbs
      else extractEntry d f fields dbpath reader dbs
    else extractEntry d f fields dbpath reader dbs.

Definition extractArchive (d : Downloader) (archive : string)
    : World -> (list Entry * option string) * World :=
  archiver_Walk archive (walkFn d) [].

Definition Download (d : Downloader) : M (list Entry) :=
  expHash <- wrapping "Cannot get archive MD5 hash" (expectedHash d) ;;
  let archive := archive_of d in
  downloadArchive d expHash archive ;;;
  let md5file := md5file_of d in
  (fun w => match createFile md5file expHash w with
            | (Ok _, w') => (Ok tt, w')
            | (Err _, w') => (Err ("Cannot create MD5 file " +:+ md5file), w')
            end) ;;;
  fun w =>
    match extractArchive d archive w with
    | ((_, Some e), w') => (Err e, w')
    | ((dbs, None), w') => (Ok dbs, w')
    end.

End Pipeline.

(** ** Notions the statements are made of *)

Section Notions.
Context `{Externals}.

(** The HTTP requests of a trace, in order. *)
Definition http_requests (t : list Event) : list Request :=
  omap (fun e => match e with EvHttp r => Some r | _ => None end) t.

(** The payload entries, in the spec's words: not a directory, and the
    extension of the name is .csv or .mmdb. *)
Definition is_payload (f : Entry) : bool :=
  negb (f_IsDir f) &&
  (String.eqb (Ext (f_Name f)) ".csv" || String.eqb (Ext (f_Name f)) ".mmdb").

Definition dbpath_of (d : Downloader) (f : Entry) : string :=
  path_Join (dlDir d) (f_Name f).

(** What the environment is: the endpoint and the failures to come. *)
Definition same_env (w w' : World) : Prop :=
  remote w' = remote w /\ faults w' = faults w.

(** [sub] occurs in [s]. *)
Definition contains (sub s : string) : Prop :=
  exists pre post, s = pre +:+ sub +:+ post.

(** The destination of [f] holds bytes with the checksum of [f]. *)
Definition current (d : Downloader) (f : Entry) (w : World) : Prop :=
  exists c, fs_data w !! dbpath_of d f = Some c /\ md5sum c = md5sum (f_data f).

(** Payload entries that share a destination have the same checksum. *)
Definition consistent (d : Downloader) (files : list Entry) : Prop :=
  forall f g, f ∈ files -> g ∈ files ->
    is_payload f = true -> is_payload g = true ->
    dbpath_of d f = dbpath_of d g -> md5sum (f_data f) = md5sum (f_data g).

(** The paths created or written to in a trace, in order. *)
Definition written (t : list Event) : list string :=
  omap (fun e => match e with
                 | EvSys (OpCreate p) | EvSys (OpWrite p) => Some p
                 | _ => None
                 end) t.

(** [w'] continues [w] with events that are neither HTTP requests nor
    creations of or writes to files. *)
Definition quietly (w w' : World) : Prop :=
  exists evs, trace w' = trace w ++ evs /\ http_requests evs = [] /\ written evs = [].

(** [w'] continues [w] with events that are not HTTP requests and that
    create or write no file but [m]. *)
Definition touching (m : string) (w w' : World) : Prop :=
  exists evs, trace w' = trace w ++ evs /\
    http_requests evs = [] /\ Forall (eq m) (written evs).

(** The same world, except that [os.Chtimes] never fails in it. *)
Definition calm (w : World) : World :=
  mkWorld (fs_data w) (fs_mtime w) (remote w)
    (fun t op => match op with OpChtimes _ => None | _ => faults w t op end)
    (ticks w) (trace w).

Definition is_warning (e : Event) : bool :=
  match e with EvLog Warn _ _ => true | _ => false end.

Definition but_warnings (t : list Event) : list Event :=
  List.filter (fun e => negb (is_warning e)) t.

(** Two worlds that differ at most in whether [os.Chtimes] fails, in the
    modification times set so far and in the warnings logged. *)
Definition alike (w w' : World) : Prop :=
  fs_data w' = fs_data w /\ remote w' = remote w /\ ticks w' = ticks w /\
  (forall t op, (forall p, op <> OpChtimes p) -> faults w' t op = faults w t op) /\
  but_warnings (trace w') = but_warnings (trace w).

(** [strings.Contains], to evaluate what a message holds. *)
Fixpoint occurs (sub s : string) : bool :=
  String.prefix sub s ||
  match s with
  | EmptyString => false
  | String _ s' => occurs sub s'
  end.

End Notions.

(** ** A small concrete instance, for the examples *)

Module Demo.

(** A stand-in digest: a 16-bit rolling sum, printed in decimal. *)
Definition digest (b : bytes) : string :=
  pretty (fold_left (fun acc x => (acc * 33 + Byte.to_N x) mod 65536)%N b 5381%N).

Fixpoint split (sep : ascii) (s cur : string) : list string :=
  match s with
  | EmptyString => if cur is EmptyString then [] else [cur]
  | String c s' =>
      if Ascii.eqb c sep then cur :: split sep s' ""
      else split sep s' (cur +:+ String c "")
  end.

Definition base (p : string) : string := List.last (split "/" p "") p.

Definition join (a b : string) : string := a +:+ "/" +:+ b.

(** A toy archive format: entries [header=data;] one after the other; a
    header ending in [/] is a directory; a chunk without [=] is damage the
    walk stops on. *)
Fixpoint cut (s hd : string) : option (string * string) :=
  match s with
  | EmptyString => None
  | String c s' =>
      if Ascii.eqb c "=" then Some (hd, s') else cut s' (hd +:+ String c "")
  end.

Definition ends_with_slash (s : string) : bool :=
  match List.last (list_ascii_of_string s) "x"%char with
  | "/"%char => true
  | _ => false
  end.

Fixpoint entries (chunks : list string) : list Entry * option string :=
  match chunks with
  | [] => ([], None)
  | ch :: rest =>
      match cut ch "" with
      | None => ([], Some "unexpected EOF")
      | Some (hd, data) =>
          let (es, stop) := entries rest in
          (mkEntry hd (base hd) (ends_with_slash hd)
             (Z.of_nat (String.length data)) 1577836800
             (list_byte_of_string data) None :: es, stop)
      end
  end.

Definition open (name : string) (content : bytes) : Res (list Entry * option string) :=
  if String.eqb (Ext name) ".tgz"
  then Ok (entries (split ";" (string_of_list_byte content) ""))
  else Err ("format unrecognized by filename: " +:+ name).

#[export] Instance externals : Externals := {|
  md5sum := digest;
  path_Join := join;
  filepath_Base := base;
  NewRequest_error := fun _ => None;
  archiver_open := open;
  archiver_walking := fun f e => "walking " +:+ f_Name f +:+ ": " +:+ e;
  HumanSize := fun n => pretty n +:+ "B";
  format_time := fun t => pretty t
|}.

Definition edition : EditionID := mkEditionID "GeoLite2-City" "tgz" "GeoLite2-City.tgz".
Definition cl : Client := mkClient "https://download.example" "KEY" "" "work".
Definition dl : Downloader := mkDownloader cl edition "out".

Definition archive_bytes : bytes :=
  list_byte_of_string "GeoLite2/=;GeoLite2/City.mmdb=MMDB1;GeoLite2/README.txt=hello;GeoLite2/blocks.csv=1,2;".

(** The endpoint: the digest of [archive_bytes] for the [.md5] suffix, the
    archive itself for the plain suffix. *)
Definition suffix_of (r : Request) : string :=
  default "" (snd <$> List.find (fun kv => String.eqb (fst kv) "suffix") (req_query r)).

Definition serve (sum : string) (content : bytes) (r : Request) : HttpResult :=
  if String.eqb (suffix_of r) "tgz.md5"
  then HttpResp 200 (mkBody "&{}" (list_byte_of_string sum) None)
  else HttpResp 200 (mkBody "&{}" content None).

Definition no_faults : nat -> IoOp -> option string := fun _ _ => None.

Definition world0 : World :=
  mkWorld ∅ ∅ (serve (digest archive_bytes) archive_bytes) no_faults 0 [].

(** *** Entries and worlds of the examples *)

Definition archive_path : string := "work/GeoLite2-City.tgz".
Definition marker_path : string := "work/.GeoLite2-City.tgz.md5".

Definition city : Entry :=
  mkEntry "GeoLite2/City.mmdb" "City.mmdb" false 5 1577836800 (list_byte_of_string "MMDB1") None.
Definition blocks : Entry :=
  mkEntry "GeoLite2/blocks.csv" "blocks.csv" false 3 1577836800 (list_byte_of_string "1,2") None.
Definition readme : Entry :=
  mkEntry "GeoLite2/README.txt" "README.txt" false 5 1577836800 (list_byte_of_string "hello") None.
Definition folder : Entry :=
  mkEntry "GeoLite2/" "GeoLite2" true 0 1577836800 [] None.

Definition world_after : World := snd (Download dl world0).

Definition garbage : bytes := list_byte_of_string "<html>busy</html>".

(** A stale archive is on disk; the endpoint announces the digest of
    [archive_bytes] and delivers [garbage]. *)
Definition world_corrupt : World :=
  mkWorld {[ archive_path := list_byte_of_string "old" ]} ∅
    (serve (digest archive_bytes) garbage) no_faults 0 [].

Definition world_stale : World :=
  mkWorld {[ archive_path := list_byte_of_string "old";
             marker_path := list_byte_of_string "2716" ]} ∅
    (serve (digest archive_bytes) archive_bytes) no_faults 0 [].

(** The archive is on disk and nothing was extracted yet. *)
Definition world_fetched : World :=
  mkWorld {[ archive_path := archive_bytes ]} ∅
    (serve (digest archive_bytes) archive_bytes) no_faults 0 [].

(** The archive on disk is valid, the marker holds something else. *)
Definition world_marked : World :=
  mkWorld {[ archive_path := archive_bytes;
             marker_path := list_byte_of_string "0000" ]} ∅
    (serve (digest archive_bytes) archive_bytes) no_faults 0 [].

(** The marker cannot be created. *)
Definition read_only_marker : nat -> IoOp -> option string :=
  fun _ op => match op with
              | OpCreate p => if String.eqb p marker_path then Some "permission denied" else None
              | _ => None
              end.

Definition world_ro : World :=
  mkWorld ∅ ∅ (serve (digest archive_bytes) archive_bytes) read_only_marker 0 [].

(** An archive two entries of which have the same base name and
    different bytes. *)
Definition twins : bytes := list_byte_of_string "a/x.csv=1;b/x.csv=2;".
Definition x1 : Entry := mkEntry "a/x.csv" "x.csv" false 1 1577836800 (list_byte_of_string "1") None.
Definition x2 : Entry := mkEntry "b/x.csv" "x.csv" false 1 1577836800 (list_byte_of_string "2") None.

Definition world_twins : World :=
  mkWorld ∅ ∅ (serve (digest twins) twins) no_faults 0 [].
Definition world_twins_after : World := snd (Download dl world_twins).

(** What [fmt] prints under [%s] for the body of a response of the
    standard transport: the fields of the reader, not the bytes to read. *)
Definition reader_repr : string :=
  "&{%!s(*http.body=0xc0001a2040) {%!s(int32=0) %!s(uint32=0)} %!s(bool=false) <nil> %!s(func(error) error=0x6b3ee0) %!s(func() error=0x6b3e60)}".

(** The endpoint refuses the license key, explaining so in the body. *)
Definition refusing (data : bytes) (r : Request) : HttpResult :=
  HttpResp 401 (mkBody reader_repr data None).

(** The endpoint gives the checksum and refuses the archive. *)
Definition refusing_archive (data : bytes) (r : Request) : HttpResult :=
  if String.eqb (suffix_of r) "tgz.md5"
  then HttpResp 200 (mkBody reader_repr (list_byte_of_string "2716") None)
  else HttpResp 401 (mkBody reader_repr data None).

Definition world_of (srv : Request -> HttpResult) : World :=
  mkWorld ∅ ∅ srv no_faults 0 [].

Definition chtimes_denied : nat -> IoOp -> option string :=
  fun _ op => match op with
              | OpChtimes _ => Some "operation not permitted"
              | _ => None
              end.

Definition world_nochtimes : World :=
  mkWorld {[ archive_path := archive_bytes ]} ∅
    (serve (digest archive_bytes) archive_bytes) chtimes_denied 0 [].

(** A stale archive is on disk and the endpoint refuses the archive. *)
Definition world_refused : World :=
  mkWorld {[ archive_path := list_byte_of_string "old" ]} ∅
    (refusing_archive (list_byte_of_string "Invalid license key")) no_faults 0 [].

(** The endpoint announces the digest of [archive_bytes]; the transfer of
    the archive breaks off after five bytes. *)
Definition serve_broken (r : Request) : HttpResult :=
  if String.eqb (suffix_of r) "tgz.md5"
  then HttpResp 200 (mkBody "&{}" (list_byte_of_string "2716") None)
  else HttpResp 200 (mkBody "&{}" (list_byte_of_string "GeoLi") (Some "unexpected EOF")).

Definition world_broken : World :=
  mkWorld {[ archive_path := list_byte_of_string "old" ]} ∅ serve_broken no_faults 0 [].

(** The archive is on disk; [blocks.csv] cannot be created. *)
Definition disk_full : nat -> IoOp -> option string :=
  fun _ op => match op with
              | OpCreate p => if String.eqb p "out/blocks.csv" then Some "no space left on device"
                              else None
              | _ => None
              end.

Definition world_full : World :=
  mkWorld {[ archive_path := archive_bytes ]} ∅
    (serve (digest archive_bytes) archive_bytes) disk_full 0 [].

(** The one error the system ever reports: [os.Stat] at the [n]-th
    system call. *)
Definition stat_fails_at (n : nat) : nat -> IoOp -> option string :=
  fun t op => match op with
              | OpStat _ => if Nat.eqb t n then Some "input/output error" else None
              | _ => None
              end.

(** The first call makes fifteen system calls; the next one is the
    [os.Stat] of the archive in the second call. *)
Definition world_flaky : World :=
  mkWorld ∅ ∅ (serve (digest archive_bytes) archive_bytes) (stat_fails_at 15) 0 [].
Definition world_flaky_after : World := snd (Download dl world_flaky).

End Demo.

(** * Properties *)

Arguments set_data _ _ /.
Arguments set_mtime _ _ /.
Arguments record _ _ /.
Arguments tick _ /.
Arguments geoip_query : simpl never.
Arguments geoip_url : simpl never.

Section Properties.
Context `{Externals}.

Lemma syscall_eq op w :
  syscall op w =
    (match faults w (ticks w) op with Some e => Err e | None => Ok tt end,
     tick (record (EvSys op) w)).
Proof. unfold syscall. by destruct (faults w (ticks w) op). Qed.

Lemma http_requests_app t1 t2 :
  http_requests (t1 ++ t2) = http_requests t1 ++ http_requests t2.
Proof. apply omap_app. Qed.

Ltac go_unfold :=
  unfold Download, downloadArchive, fetchArchive, expectedHash, currentHash,
    extractArchive, archiver_Walk, walkFn, extractEntry, createFile, fileExists,
    checksumFromFile, checksumFromReader, geoip_request, ReadAll,
    io_Copy, os_ReadFile, os_Create, file_Write, os_Chtimes, os_Stat, http_Do,
    log, try, wrapping, bind, ret, fail, syscall in *.

Lemma same_env_refl w : same_env w w.
Proof. by split. Qed.

Lemma same_env_trans w1 w2 w3 : same_env w1 w2 -> same_env w2 w3 -> same_env w1 w3.
Proof. intros [? ?] [? ?]. split; congruence. Qed.

Ltac go_cases := repeat (simpl in *; case_match; simplify_eq); simpl in *.

Lemma expectedHash_frame d w :
  let w' := snd (expectedHash d w) in
  fs_data w' = fs_data w /\ fs_mtime w' = fs_mtime w /\ ticks w' = ticks w /\ same_env w w'.
Proof. unfold same_env. go_unfold. go_cases; done. Qed.

Lemma downloadArchive_env d h a w : same_env w (snd (downloadArchive d h a w)).
Proof. unfold same_env. go_unfold. go_cases; done. Qed.

Lemma createFile_env p c w : same_env w (snd (createFile p c w)).
Proof. unfold same_env. go_unfold. go_cases; done. Qed.

Lemma walkFn_env d f dbs w : same_env w (snd (walkFn d f dbs w)).
Proof. unfold same_env. go_unfold. go_cases; done. Qed.

Lemma walkFn_nonpayload d f dbs w :
  is_payload f = false -> walkFn d f dbs w = (Ok dbs, w).
Proof.
  unfold is_payload, walkFn. intros Hp.
  destruct (f_IsDir f); [done|]. simpl in *.
  destruct (Ext (f_Name f) =? ".csv")%string, (Ext (f_Name f) =? ".mmdb")%string; done.
Qed.

Lemma walkFn_frame d f dbs w p :
  (is_payload f = true -> dbpath_of d f <> p) ->
  fs_data (snd (walkFn d f dbs w)) !! p = fs_data w !! p.
Proof.
  intros Hp. destruct (is_payload f) eqn:E.
  2: { by rewrite walkFn_nonpayload. }
  specialize (Hp eq_refl). unfold dbpath_of in Hp.
  go_unfold. go_cases; rewrite ?lookup_insert_ne by done; done.
Qed.

Lemma walk_files_env d files dbs w :
  same_env w (snd (walk_files (walkFn d) files dbs w)).
Proof.
  revert dbs w. induction files as [|f files IH]; intros dbs w; simpl.
  - apply same_env_refl.
  - pose proof (walkFn_env d f dbs w) as Hf.
    destruct (walkFn d f dbs w) as [[dbs'|e] w']; simpl in *; [|done].
    eapply same_env_trans; [exact Hf|apply IH].
Qed.

Lemma walk_files_frame d files dbs w p :
  (forall f, f ∈ files -> is_payload f = true -> dbpath_of d f <> p) ->
  fs_data (snd (walk_files (walkFn d) files dbs w)) !! p = fs_data w !! p.
Proof.
  revert dbs w. induction files as [|f files IH]; intros dbs w Hp; simpl; [done|].
  pose proof (walkFn_frame d f dbs w p) as Hf.
  destruct (walkFn d f dbs w) as [[dbs'|e] w']; simpl in *.
  - rewrite IH; [apply Hf|]; intros; apply Hp; by try constructor.
  - apply Hf. apply Hp. constructor.
Qed.

Lemma extractArchive_frame d a w p :
  (forall f, is_payload f = true -> dbpath_of d f <> p) ->
  fs_data (snd (extractArchive d a w)) !! p = fs_data w !! p.
Proof.
  intros Hp. unfold extractArchive, archiver_Walk, os_ReadFile, bind, syscall.
  go_cases; try done.
  all: match goal with
       | E : walk_files _ ?fs ?s ?w0 = (_, ?w1) |- fs_data ?w1 !! _ = _ =>
           change w1 with (snd (walk_files (walkFn d) fs s w0, w1).2) ||
           (replace w1 with (snd (walk_files (walkFn d) fs s w0)) by (by rewrite E));
           rewrite walk_files_frame by (intros; by apply Hp); done
       end.
Qed.

Lemma Download_unfold d w :
  Download d w =
    match expectedHash d w with
    | (Err e, w1) => (Err (Wrap e "Cannot get archive MD5 hash"), w1)
    | (Ok expHash, w1) =>
        match downloadArchive d expHash (archive_of d) w1 with
        | (Err e, w2) => (Err e, w2)
        | (Ok _, w2) =>
            match createFile (md5file_of d) expHash w2 with
            | (Err _, w3) => (Err ("Cannot create MD5 file " +:+ md5file_of d), w3)
            | (Ok _, w3) =>
                match extractArchive d (archive_of d) w3 with
                | ((_, Some e), w4) => (Err e, w4)
                | ((dbs, None), w4) => (Ok dbs, w4)
                end
            end
        end
    end.
Proof.
  unfold Download, bind, wrapping.
  destruct (expectedHash d w) as [[h|e] w1]; [|done].
  destruct (downloadArchive d h (archive_of d) w1) as [[[]|e] w2]; [|done].
  destruct (createFile (md5file_of d) h w2) as [[[]|e] w3]; done.
Qed.

Lemma createFile_ok p c w :
  faults w (ticks w) (OpCreate p) = None ->
  faults w (S (ticks w)) (OpWrite p) = None ->
  fst (createFile p c w) = Ok tt /\
  fs_data (snd (createFile p c w)) = <[p := list_byte_of_string c]> (fs_data w).
Proof.
  intros Hc Hw. go_unfold. simpl. rewrite Hc. simpl. rewrite Hw. simpl.
  split; [done|]. rewrite lookup_insert_eq. simpl. apply insert_insert_eq.
Qed.

Lemma createFile_err p c w e w' :
  createFile p c w = (Err e, w') ->
  (forall q, q <> p -> fs_data w' !! q = fs_data w !! q) /\
  http_requests (trace w') = http_requests (trace w) /\
  exists evs, trace w' = trace w ++ evs /\
    Forall (fun ev => ev = EvSys (OpCreate p) \/ ev = EvSys (OpWrite p)) evs.
Proof.
  go_unfold. intros Hr. go_cases; rewrite <- ?app_assoc; simpl.
  - split; [intros; by rewrite lookup_insert_ne|].
    rewrite http_requests_app. simpl. rewrite app_nil_r. split; [done|].
    eexists. split; [done|]. repeat (first [apply Forall_nil | apply Forall_cons_2]); auto.
  - split; [done|]. rewrite http_requests_app. simpl. rewrite app_nil_r. split; [done|].
    eexists. split; [done|]. repeat (first [apply Forall_nil | apply Forall_cons_2]); auto.
Qed.

(** C4: when a file exists at the archive path and its checksum is the
    expected one, [downloadArchive] succeeds, issues no HTTP request and
    leaves every file as it was. *)
Theorem downloadArchive_skips_valid_archive d expHash archive w c :
  fs_data w !! archive = Some c ->
  md5sum c = expHash ->
  faults w (ticks w) (OpStat archive) = None ->
  faults w (S (ticks w)) (OpRead archive) = None ->
  fst (downloadArchive d expHash archive w) = Ok tt /\
  fs_data (snd (downloadArchive d expHash archive w)) = fs_data w /\
  http_requests (trace (snd (downloadArchive d expHash archive w))) = http_requests (trace w).
Proof.
  intros Hc Hh Hs Hr. go_unfold. simpl.
  rewrite Hs, Hc. simpl. rewrite Hr. simpl. rewrite Hc, Hh, String.eqb_refl. simpl.
  rewrite <- !app_assoc, http_requests_app. simpl. rewrite app_nil_r. done.
Qed.

(** C10: when the fetch succeeded and writing the marker fails, [Download]
    returns the error "Cannot create MD5 file ..." in the world the failed
    write left: extraction is not started, so no file other than the marker
    differs from what the fetch left, no descriptors are returned, and
    nothing happened after the fetch but the attempt on the marker. *)
Theorem Download_stops_when_marker_write_fails d w expHash w1 w2 e w3 :
  expectedHash d w = (Ok expHash, w1) ->
  downloadArchive d expHash (archive_of d) w1 = (Ok tt, w2) ->
  createFile (md5file_of d) expHash w2 = (Err e, w3) ->
  Download d w = (Err ("Cannot create MD5 file " +:+ md5file_of d), w3) /\
  (forall p, p <> md5file_of d -> fs_data w3 !! p = fs_data w2 !! p) /\
  exists evs, trace w3 = trace w2 ++ evs /\
    Forall (fun ev => ev = EvSys (OpCreate (md5file_of d)) \/
                      ev = EvSys (OpWrite (md5file_of d))) evs.
Proof.
  intros He Hd Hc. rewrite Download_unfold, He, Hd, Hc.
  split; [done|]. apply createFile_err in Hc as (? & _ & ?). done.
Qed.

(** C8: after a successful fetch (a transfer or a skip alike), [Download]
    writes the expected checksum to the marker; unless that write itself
    fails the marker holds exactly the expected checksum when [Download]
    returns, whatever it held before. *)
Theorem Download_writes_marker d w expHash w1 w2 :
  expectedHash d w = (Ok expHash, w1) ->
  downloadArchive d expHash (archive_of d) w1 = (Ok tt, w2) ->
  faults w2 (ticks w2) (OpCreate (md5file_of d)) = None ->
  faults w2 (S (ticks w2)) (OpWrite (md5file_of d)) = None ->
  (forall f, is_payload f = true -> dbpath_of d f <> md5file_of d) ->
  fs_data (snd (Download d w)) !! md5file_of d = Some (list_byte_of_string expHash).
Proof.
  intros He Hd Hc Hw Hp. rewrite Download_unfold, He, Hd.
  destruct (createFile_ok (md5file_of d) expHash w2 Hc Hw) as [Hr Hfs].
  destruct (createFile (md5file_of d) expHash w2) as [[[]|?] w3]; simplify_eq/=.
  pose proof (extractArchive_frame d (archive_of d) w3 (md5file_of d) Hp) as Hx.
  destruct (extractArchive d (archive_of d) w3) as [[dbs [err|]] w4]; simpl in *;
    rewrite Hx, Hfs; apply lookup_insert_eq.
Qed.

Lemma expectedHash_ok_request d w h :
  fst (expectedHash d w) = Ok h -> NewRequest_error (geoip_url d) = None.
Proof. go_unfold. intros Hr. go_cases; done. Qed.

Lemma append_assoc (s1 s2 s3 : string) : (s1 +:+ s2) +:+ s3 = s1 +:+ s2 +:+ s3.
Proof.
  induction s1 as [|c s1 IH]; [done|].
  change (String c ((s1 +:+ s2) +:+ s3) = String c (s1 +:+ s2 +:+ s3)).
  by rewrite IH.
Qed.

Lemma contains_mismatch cur exp :
  contains cur (mismatch cur exp) /\ contains exp (mismatch cur exp).
Proof.
  unfold mismatch, contains. split.
  - by eexists "MD5 of downloaded archive (", _.
  - exists ("MD5 of downloaded archive (" +:+ cur +:+ ") does not match expected md5 ("), ")".
    by rewrite !append_assoc.
Qed.

Lemma downloadArchive_mismatch d expHash a w body :
  NewRequest_error (geoip_url d) = None ->
  remote w (geoip_query d (eid_Suffix (eid d))) = HttpResp StatusOK body ->
  body_err body = None ->
  (forall t, faults w t (OpRead a) = None) ->
  (forall t, faults w t (OpCreate a) = None) ->
  (forall t, faults w t (OpWrite a) = None) ->
  (forall c, fs_data w !! a = Some c -> md5sum c <> expHash) ->
  md5sum (body_data body) <> expHash ->
  fst (downloadArchive d expHash a w) = Err (mismatch (md5sum (body_data body)) expHash) /\
  fs_data (snd (downloadArchive d expHash a w)) = <[a := body_data body]> (fs_data w).
Proof.
  intros Hq Hre Hbe Hr Hc Hw Hstale Hne.
  assert (forall c, fs_data w !! a = Some c -> (expHash =? md5sum c)%string = false) as Hs.
  { intros c Hl. apply String.eqb_neq. intros ->. by eapply Hstale. }
  apply not_eq_sym, String.eqb_neq in Hne.
  assert (forall w1, fs_data w1 = fs_data w -> remote w1 = remote w -> faults w1 = faults w ->
          fst (fetchArchive d expHash a w1) = Err (mismatch (md5sum (body_data body)) expHash) /\
          fs_data (snd (fetchArchive d expHash a w1)) = <[a := body_data body]> (fs_data w)) as Hfetch.
  { intros w1 E1 E2 E3. go_unfold. simpl.
    rewrite Hq; simpl; rewrite E2, Hre; simpl; rewrite E3, Hc; simpl;
    rewrite Hw; simpl; rewrite Hbe; simpl; rewrite Hr; simpl;
    rewrite !lookup_insert_eq; simpl; rewrite Hne; simpl.
    by rewrite insert_insert_eq, E1. }
  unfold downloadArchive, os_Stat, syscall. simpl.
  destruct (faults w (ticks w) (OpStat a)); [by apply Hfetch|].
  destruct (fs_data w !! a) as [c|] eqn:El; [|by apply Hfetch].
  unfold wrapping, bind, checksumFromFile, os_ReadFile, bind, syscall, ret. simpl.
  rewrite Hr. simpl. rewrite El. simpl. rewrite (Hs c) by done. by apply Hfetch.
Qed.

(** C1: when the bytes the endpoint delivers do not have the expected
    checksum, [Download] fails with the integrity error, whose message
    holds both checksums; the marker is left as it was, and the archive
    path holds the delivered bytes. *)
Theorem Download_integrity_failure d w expHash body :
  fst (expectedHash d w) = Ok expHash ->
  remote w (geoip_query d (eid_Suffix (eid d))) = HttpResp StatusOK body ->
  body_err body = None ->
  (forall t, faults w t (OpRead (archive_of d)) = None) ->
  (forall t, faults w t (OpCreate (archive_of d)) = None) ->
  (forall t, faults w t (OpWrite (archive_of d)) = None) ->
  (forall c, fs_data w !! archive_of d = Some c -> md5sum c <> expHash) ->
  md5sum (body_data body) <> expHash ->
  md5file_of d <> archive_of d ->
  fst (Download d w) = Err (mismatch (md5sum (body_data body)) expHash) /\
  contains (md5sum (body_data body)) (mismatch (md5sum (body_data body)) expHash) /\
  contains expHash (mismatch (md5sum (body_data body)) expHash) /\
  fs_data (snd (Download d w)) !! md5file_of d = fs_data w !! md5file_of d /\
  fs_data (snd (Download d w)) !! archive_of d = Some (body_data body).
Proof.
  intros He Hre Hbe Hr Hc Hw Hstale Hne Hpaths.
  pose proof (expectedHash_ok_request d w expHash He) as Hq.
  pose proof (expectedHash_frame d w) as (Hfs & _ & _ & Hrem & Hfl).
  rewrite Download_unfold.
  destruct (expectedHash d w) as [[h|?] w1]; simplify_eq/=.
  destruct (downloadArchive_mismatch d expHash (archive_of d) w1 body) as [Hres Hdata];
    rewrite ?Hfl, ?Hrem, ?Hfs; try done.
  destruct (downloadArchive d expHash (archive_of d) w1) as [[[]|e] w2]; simplify_eq/=.
  split; [done|]. destruct (contains_mismatch (md5sum (body_data body)) expHash).
  repeat split; try done.
  - by rewrite Hdata, lookup_insert_ne, Hfs.
  - by rewrite Hdata, lookup_insert_eq.
Qed.


(** The error of a non-200 response is made of the status code and of the
    rendering of the reader value: the bytes of the body play no part. *)
Lemma invalid_status_ignores_body status repr data1 err1 data2 err2 :
  invalid_status status (mkBody repr data1 err1) =
  invalid_status status (mkBody repr data2 err2).
Proof. reflexivity. Qed.

(** One step of the walk returns the list it was given, or that list with
    the entry appended, and the latter for payload entries only. *)
Lemma walkFn_result d f dbs w dbs' w' :
  walkFn d f dbs w = (Ok dbs', w') ->
  dbs' = dbs \/ (dbs' = dbs ++ [f] /\ is_payload f = true).
Proof.
  destruct (is_payload f) eqn:E.
  2: { rewrite walkFn_nonpayload by done. intros; simplify_eq. by left. }
  go_unfold. intros Hr. go_cases; auto.
Qed.

Lemma walk_files_nonpayload d files dbs w :
  walk_files (walkFn d) files dbs w =
  walk_files (walkFn d) (List.filter is_payload files) dbs w.
Proof.
  revert dbs w. induction files as [|f files IH]; intros dbs w; simpl; [done|].
  destruct (is_payload f) eqn:E; simpl.
  - destruct (walkFn d f dbs w) as [[dbs'|e] w']; [apply IH|done].
  - rewrite walkFn_nonpayload by done. apply IH.
Qed.

Lemma walk_files_result d files dbs w :
  exists l, fst (fst (walk_files (walkFn d) files dbs w)) = dbs ++ l /\
            sublist l (List.filter is_payload files).
Proof.
  revert dbs w. induction files as [|f files IH]; intros dbs w; simpl.
  - exists []. by rewrite app_nil_r.
  - destruct (walkFn d f dbs w) as [[dbs'|e] w'] eqn:E; simpl.
    + destruct (IH dbs' w') as (l & -> & Hl).
      apply walkFn_result in E as [->|[-> Hp]].
      * exists l. split; [done|]. destruct (is_payload f); [by apply sublist_cons|done].
      * exists (f :: l). rewrite <- app_assoc. split; [done|].
        rewrite Hp. by apply sublist_skip.
    + exists []. rewrite app_nil_r. split; [done|]. apply sublist_nil_l.
Qed.

Lemma payload_guard f :
  is_payload f = true ->
  f_IsDir f = false /\
  negb (Ext (f_Name f) =? ".csv")%string && negb (Ext (f_Name f) =? ".mmdb")%string = false.
Proof.
  unfold is_payload. intros Hp.
  apply andb_true_iff in Hp as [Hd Hx]. apply negb_true_iff in Hd. split; [done|].
  apply orb_true_iff in Hx as [->| ->]; simpl; [done|apply andb_false_r].
Qed.

Lemma walkFn_payload_step d f dbs w dbs' w' :
  is_payload f = true ->
  walkFn d f dbs w = (Ok dbs', w') ->
  (dbs' = dbs ++ [f] /\ fs_data w' !! dbpath_of d f = Some (f_data f)) \/
  (dbs' = dbs /\ fs_data w' = fs_data w /\ current d f w).
Proof.
  intros Hp Hr. apply payload_guard in Hp as [Hd Hg].
  unfold current, dbpath_of. revert Hr. go_unfold. rewrite Hd, Hg. intros Hr.
  repeat (simpl in *; case_match; simplify_map_eq); simpl in *;
    try match goal with
    | E : (_ =? _)%string = true |- _ => apply String.eqb_eq in E
    end; eauto 10.
Qed.

Lemma walkFn_payload_examined d f dbs w :
  is_payload f = true ->
  (exists e, f_readerr f = Some e /\ walkFn d f dbs w = (Err e, w)) \/
  (f_readerr f = None /\
   exists evs, trace (snd (walkFn d f dbs w)) =
               trace w ++ EvSys (OpStat (dbpath_of d f)) :: evs).
Proof.
  intros Hp. apply payload_guard in Hp as [Hd Hg].
  unfold dbpath_of. go_unfold. rewrite Hd, Hg.
  destruct (f_readerr f) as [e|]; [left; by exists e|right; split; [done|]].
  go_cases; rewrite <- ?app_assoc; simpl; by eexists.
Qed.

Lemma walk_files_fresh d files dbs w dbs' w' :
  NoDup (List.map (dbpath_of d) (List.filter is_payload files)) ->
  (forall f, f ∈ files -> is_payload f = true -> ~ current d f w) ->
  walk_files (walkFn d) files dbs w = ((dbs', None), w') ->
  dbs' = dbs ++ List.filter is_payload files /\
  forall f, f ∈ files -> is_payload f = true ->
    fs_data w' !! dbpath_of d f = Some (f_data f).
Proof.
  revert dbs w. induction files as [|f0 rest IH]; intros dbs w Hnd Hfresh Hw; simpl in *.
  { simplify_eq. rewrite app_nil_r. split; [done|]. intros f Hf. by apply elem_of_nil in Hf. }
  destruct (is_payload f0) eqn:Hp0.
  - destruct (walkFn d f0 dbs w) as [[dbs1|e] w1] eqn:E0; [|done].
    simpl in Hnd. apply NoDup_cons in Hnd as [Hnin Hnd].
    assert (forall g, g ∈ rest -> is_payload g = true -> dbpath_of d g <> dbpath_of d f0) as Hne.
    { intros g Hg Hpg Heq. apply Hnin. rewrite <- Heq.
      apply list_elem_of_In, in_map, filter_In. split; [by apply list_elem_of_In|done]. }
    destruct (walkFn_payload_step _ _ _ _ _ _ Hp0 E0) as [[-> Hd0]|(_ & _ & Hcur)].
    2: { destruct (Hfresh f0); [constructor|done..]. }
    destruct (IH (dbs ++ [f0]) w1 Hnd) as [-> Hall]; [|done|].
    { intros g Hg Hpg (c & Hc & Hh). apply (Hfresh g); [by constructor|done|].
      exists c. split; [|done]. rewrite <- Hc. symmetry.
      replace w1 with (snd (walkFn d f0 dbs w)) by (by rewrite E0).
      apply walkFn_frame. intros _ Heq. by apply (Hne g). }
    split; [by rewrite <- app_assoc|].
    intros f Hf Hpf. apply elem_of_cons in Hf as [->|Hf]; [|by apply Hall].
    rewrite <- Hd0. replace w' with (snd (walk_files (walkFn d) rest (dbs ++ [f0]) w1))
      by (by rewrite Hw).
    apply walk_files_frame. intros g Hg Hpg. by apply Hne.
  - rewrite walkFn_nonpayload in Hw by done.
    destruct (IH dbs w Hnd) as [-> Hall]; [|done|].
    { intros g Hg. apply Hfresh. by constructor. }
    split; [done|]. intros f Hf Hpf.
    apply elem_of_cons in Hf as [->|Hf]; [congruence|by apply Hall].
Qed.

(** C5: extraction works on exactly the payload entries. An entry that is
    a directory or has another extension is passed over without error and
    without effect, so the walk is the walk over the payload entries, and
    the descriptors returned are payload entries of the archive, in the
    order of the walk. A payload entry is worked on: when its step succeeds
    it was written out and appended, unless its destination held bytes
    with its checksum already. So an extraction that returns no error,
    into a directory where no destination is up to date and no two payload
    entries share a destination, returns all the payload entries and no
    others, each of them written out. *)
Theorem extractArchive_filters_payload d archive w content files stop :
  fs_data w !! archive = Some content ->
  archiver_open archive content = Ok (files, stop) ->
  (forall f dbs w', is_payload f = false -> walkFn d f dbs w' = (Ok dbs, w')) /\
  (forall dbs w', walk_files (walkFn d) files dbs w' =
                  walk_files (walkFn d) (List.filter is_payload files) dbs w') /\
  sublist (fst (fst (extractArchive d archive w))) (List.filter is_payload files) /\
  (forall f dbs w1 dbs' w2, is_payload f = true ->
     walkFn d f dbs w1 = (Ok dbs', w2) ->
     (dbs' = dbs ++ [f] /\ fs_data w2 !! dbpath_of d f = Some (f_data f)) \/
     (dbs' = dbs /\ fs_data w2 = fs_data w1 /\ current d f w1)) /\
  (NoDup (List.map (dbpath_of d) (List.filter is_payload files)) ->
   (forall f, f ∈ files -> is_payload f = true -> ~ current d f w) ->
   snd (fst (extractArchive d archive w)) = None ->
   fst (fst (extractArchive d archive w)) = List.filter is_payload files /\
   forall f, f ∈ files -> is_payload f = true ->
     fs_data (snd (extractArchive d archive w)) !! dbpath_of d f = Some (f_data f)).
Proof.
  intros Hc Ho. split; [intros; by apply walkFn_nonpayload|].
  split; [intros; apply walk_files_nonpayload|].
  split; [|split; [intros; by eapply walkFn_payload_step|]].
  - unfold extractArchive, archiver_Walk, os_ReadFile, bind, syscall. simpl.
    destruct (faults w (ticks w) (OpRead archive)); simpl; [apply sublist_nil_l|].
    rewrite Hc, Ho.
    match goal with |- context [walk_files ?fn ?fs ?s ?w0] =>
      destruct (walk_files_result d fs s w0) as (l & Hl & Hsub);
      destruct (walk_files fn fs s w0) as [[dbs [e|]] w4] end;
    simpl in *; by subst.
  - intros Hnd Hfresh.
    unfold extractArchive, archiver_Walk, os_ReadFile, bind, syscall. simpl.
    destruct (faults w (ticks w) (OpRead archive)); simpl; [done|].
    rewrite Hc, Ho.
    match goal with |- context [walk_files ?fn ?fs ?s ?w0] =>
      pose proof (walk_files_fresh d fs s w0) as Hw;
      destruct (walk_files fn fs s w0) as [[dbs [e|]] w4] end;
    simpl; [done|]. intros ->.
    by apply (Hw dbs w4).
Qed.

(** C2, as the code has it: when the destination of a payload entry exists
    and has the entry's checksum, the step for that entry writes nothing
    and appends nothing: it returns the descriptor list it was given. *)
Theorem walkFn_passes_over_current_entry d f dbs w c :
  is_payload f = true ->
  f_readerr f = None ->
  fs_data w !! dbpath_of d f = Some c ->
  md5sum c = md5sum (f_data f) ->
  faults w (ticks w) (OpStat (dbpath_of d f)) = None ->
  faults w (S (ticks w)) (OpRead (dbpath_of d f)) = None ->
  fst (walkFn d f dbs w) = Ok dbs /\
  fs_data (snd (walkFn d f dbs w)) = fs_data w /\
  fs_mtime (snd (walkFn d f dbs w)) = fs_mtime w /\
  trace (snd (walkFn d f dbs w)) =
    trace w ++ [EvSys (OpStat (dbpath_of d f)); EvSys (OpRead (dbpath_of d f));
                EvLog Debug (sublog d f (md5sum (f_data f))) "Database is already up to date"].
Proof.
  unfold is_payload, dbpath_of. intros Hp He Hc Hh Hs Hr.
  apply andb_true_iff in Hp as [Hd Hx]. apply negb_true_iff in Hd.
  assert (negb (Ext (f_Name f) =? ".csv")%string && negb (Ext (f_Name f) =? ".mmdb")%string = false) as Hg.
  { apply orb_true_iff in Hx as [->| ->]; simpl; [done|apply andb_false_r]. }
  go_unfold. rewrite Hd, Hg, He. simpl. rewrite Hs, Hc. simpl. rewrite Hr. simpl.
  rewrite Hc, Hh, String.eqb_refl. simpl. by rewrite <- !app_assoc.
Qed.

(** ** Two calls in a row *)

Lemma expectedHash_same_remote d w w' :
  remote w' = remote w -> fst (expectedHash d w') = fst (expectedHash d w).
Proof.
  intros Hr. go_unfold.
  destruct (NewRequest_error (geoip_url d)); simpl; [done|]. rewrite Hr. go_cases; done.
Qed.

Lemma expectedHash_requests d w h :
  fst (expectedHash d w) = Ok h ->
  trace (snd (expectedHash d w)) =
    trace w ++ [EvHttp (geoip_query d (eid_Suffix (eid d) +:+ ".md5"))].
Proof. go_unfold. intros Hr. go_cases; done. Qed.

Lemma downloadArchive_ok_archive d h a w w' :
  downloadArchive d h a w = (Ok tt, w') ->
  exists c, fs_data w' !! a = Some c /\ md5sum c = h.
Proof.
  go_unfold. intros Hr.
  repeat (simpl in *; case_match; simplify_map_eq); simpl in *;
    match goal with
    | E : (_ =? _)%string = true |- _ => apply String.eqb_eq in E
    | E : negb (_ =? _)%string = false |- _ =>
        apply negb_false_iff, String.eqb_eq in E
    end; eauto.
Qed.

Lemma createFile_ok_inv p c w w' :
  createFile p c w = (Ok tt, w') ->
  fs_data w' = <[p := list_byte_of_string c]> (fs_data w) /\
  http_requests (trace w') = http_requests (trace w).
Proof.
  go_unfold. intros Hr. go_cases. rewrite lookup_insert_eq, insert_insert_eq. simpl.
  split; [done|]. rewrite <- app_assoc, http_requests_app. simpl. by rewrite app_nil_r.
Qed.

Lemma walkFn_ok_current d f dbs w dbs' w' :
  walkFn d f dbs w = (Ok dbs', w') -> is_payload f = true -> current d f w'.
Proof.
  intros Hr Hp. unfold current, dbpath_of.
  unfold is_payload in Hp. apply andb_true_iff in Hp as [Hd Hx]. apply negb_true_iff in Hd.
  assert (negb (Ext (f_Name f) =? ".csv")%string && negb (Ext (f_Name f) =? ".mmdb")%string = false) as Hg.
  { apply orb_true_iff in Hx as [->| ->]; simpl; [done|apply andb_false_r]. }
  revert Hr. go_unfold. rewrite Hd, Hg. intros Hr.
  repeat (simpl in *; case_match; simplify_map_eq); simpl in *;
    try match goal with
    | E : (_ =? _)%string = true |- _ => apply String.eqb_eq in E
    end; eauto.
Qed.

Lemma walk_files_ok_current d files dbs w dbs' w' :
  walk_files (walkFn d) files dbs w = ((dbs', None), w') ->
  consistent d files ->
  forall f, f ∈ files -> is_payload f = true -> current d f w'.
Proof.
  revert dbs w. induction files as [|f0 rest IH]; intros dbs w Hw Hcons f Hin Hp.
  { by apply elem_of_nil in Hin. }
  simpl in Hw. destruct (walkFn d f0 dbs w) as [[dbs1|e] w1] eqn:E0; [|done].
  assert (consistent d rest) as Hcons'.
  { intros g1 g2 ? ?. apply Hcons; by constructor. }
  apply elem_of_cons in Hin as [->|Hin]; [|by eapply IH].
  pose proof (walkFn_ok_current _ _ _ _ _ _ E0 Hp) as (c & Hc & Hh).
  destruct (decide (Exists (fun g => is_payload g = true /\ dbpath_of d g = dbpath_of d f0) rest))
    as [Hex|Hex].
  - apply Exists_exists in Hex as (g & Hg & Hpg & Hpath).
    destruct (IH _ _ Hw Hcons' g Hg Hpg) as (c' & Hc' & Hh').
    exists c'. rewrite <- Hpath. split; [done|]. rewrite Hh'.
    symmetry. apply Hcons; try done; by constructor.
  - exists c. split; [|done]. rewrite <- Hc.
    replace w' with (snd (walk_files (walkFn d) rest dbs1 w1)) by (by rewrite Hw).
    apply walk_files_frame. intros g Hg Hpg Hpath. apply Hex.
    apply Exists_exists. eauto.
Qed.

Lemma written_app t1 t2 : written (t1 ++ t2) = written t1 ++ written t2.
Proof. apply omap_app. Qed.

Lemma quietly_refl w : quietly w w.
Proof. exists []. by rewrite app_nil_r. Qed.

Lemma quietly_trans w1 w2 w3 : quietly w1 w2 -> quietly w2 w3 -> quietly w1 w3.
Proof.
  intros (e1 & E1 & H1 & W1) (e2 & E2 & H2 & W2). exists (e1 ++ e2).
  by rewrite E2, E1, app_assoc, http_requests_app, written_app, H1, H2, W1, W2.
Qed.

Ltac quiet := rewrite <- ?app_assoc; by eexists.

Lemma quietly_touching m w w' : quietly w w' -> touching m w w'.
Proof. intros (evs & ? & ? & Hw). exists evs. rewrite Hw. by repeat split. Qed.

Lemma touching_trans m w1 w2 w3 : touching m w1 w2 -> touching m w2 w3 -> touching m w1 w3.
Proof.
  intros (e1 & E1 & H1 & W1) (e2 & E2 & H2 & W2). exists (e1 ++ e2).
  rewrite E2, E1, app_assoc, http_requests_app, written_app, H1, H2.
  split; [done|]. split; [done|]. by apply Forall_app.
Qed.

Lemma after_request m req w1 w2 w3 :
  trace w2 = trace w1 ++ [EvHttp req] -> touching m w2 w3 ->
  exists evs, trace w3 = trace w1 ++ evs /\
    http_requests evs = [req] /\ Forall (eq m) (written evs).
Proof.
  intros E (evs & E' & Hh & Hw). exists (EvHttp req :: evs).
  rewrite E', E, <- app_assoc. simpl. rewrite Hh. by repeat split.
Qed.

Lemma downloadArchive_valid d h a w c :
  fs_data w !! a = Some c -> md5sum c = h ->
  faults w (ticks w) (OpStat a) = None ->
  fs_data (snd (downloadArchive d h a w)) = fs_data w /\
  quietly w (snd (downloadArchive d h a w)) /\
  (fst (downloadArchive d h a w) = Ok tt \/ exists e, fst (downloadArchive d h a w) = Err e) /\
  (faults w (S (ticks w)) (OpRead a) = None -> fst (downloadArchive d h a w) = Ok tt).
Proof.
  intros Hc Hh Hs.
  unfold downloadArchive, os_Stat, checksumFromFile, os_ReadFile, wrapping, bind, ret,
    syscall, log. simpl. rewrite Hs, Hc. simpl.
  destruct (faults w (S (ticks w)) (OpRead a)); simpl;
    rewrite ?Hc, ?Hh, ?String.eqb_refl; simpl;
    (split; [done|]; split; [quiet|]); split; eauto; intros; discriminate.
Qed.

Lemma createFile_any p c w :
  touching p w (snd (createFile p c w)) /\
  (forall q, q <> p -> fs_data (snd (createFile p c w)) !! q = fs_data w !! q) /\
  (fst (createFile p c w) = Ok tt ->
     fs_data (snd (createFile p c w)) = <[p := list_byte_of_string c]> (fs_data w)).
Proof.
  go_unfold. simpl.
  destruct (faults w (ticks w) (OpCreate p)); simpl;
    [|destruct (faults w (S (ticks w)) (OpWrite p)); simpl].
  all: split; [eexists; rewrite <- ?app_assoc; split; [done|]; split; [done|];
               by repeat constructor|].
  all: split; [intros; by rewrite ?lookup_insert_ne|]; try done.
  intros _. by rewrite lookup_insert_eq, insert_insert_eq.
Qed.

Lemma walkFn_current d f dbs w :
  (is_payload f = true -> current d f w) ->
  (forall t p, faults w t (OpStat p) = None) ->
  fs_data (snd (walkFn d f dbs w)) = fs_data w /\
  quietly w (snd (walkFn d f dbs w)) /\
  (fst (walkFn d f dbs w) = Ok dbs \/ exists e, fst (walkFn d f dbs w) = Err e) /\
  ((is_payload f = true -> f_readerr f = None) ->
   (forall t op, faults w t op = None) -> fst (walkFn d f dbs w) = Ok dbs).
Proof.
  intros Hcur Hs. destruct (is_payload f) eqn:Hp.
  2: { rewrite walkFn_nonpayload by done. simpl. split; [done|]. split; [apply quietly_refl|]. eauto. }
  destruct (Hcur eq_refl) as (c & Hc & Hh). unfold dbpath_of in Hc.
  destruct (payload_guard f Hp) as [Hd Hg].
  go_unfold. rewrite Hd, Hg.
  destruct (f_readerr f) as [e|]; simpl;
    [split; [done|]; split; [apply quietly_refl|]; split; [eauto|]|].
  { intros Hr. by specialize (Hr eq_refl). }
  rewrite Hs, Hc. simpl.
  destruct (faults w (S (ticks w)) (OpRead (path_Join (dlDir d) (f_Name f)))) eqn:Hr; simpl.
  - split; [done|]. split; [quiet|]. split; [eauto|].
    intros _ Hnf. by rewrite Hnf in Hr.
  - rewrite Hc, Hh, String.eqb_refl. simpl.
    split; [done|]. split; [quiet|]. split; eauto.
Qed.

Lemma walk_files_current d files dbs w :
  (forall f, f ∈ files -> is_payload f = true -> current d f w) ->
  (forall t p, faults w t (OpStat p) = None) ->
  fs_data (snd (walk_files (walkFn d) files dbs w)) = fs_data w /\
  quietly w (snd (walk_files (walkFn d) files dbs w)) /\
  fst (fst (walk_files (walkFn d) files dbs w)) = dbs /\
  ((forall f, f ∈ files -> is_payload f = true -> f_readerr f = None) ->
   (forall t op, faults w t op = None) ->
   snd (fst (walk_files (walkFn d) files dbs w)) = None).
Proof.
  revert w. induction files as [|f rest IH]; intros w Hcur Hs; simpl.
  { split; [done|]. split; [apply quietly_refl|done]. }
  destruct (walkFn_current d f dbs w) as (Hfs & Hh & Hres & Hnf); [|done|].
  { intros. apply Hcur; [constructor|done]. }
  pose proof (walkFn_env d f dbs w) as [_ Hfl].
  destruct (walkFn d f dbs w) as [[dbs'|e] w'] eqn:E; simpl in *.
  - assert (dbs' = dbs) as -> by (destruct Hres as [?|[? ?]]; by simplify_eq).
    destruct (IH w') as (Hfs' & Hh' & Hd' & Hnf').
    { intros g Hg Hpg. destruct (Hcur g) as (c & Hc & ?); [by constructor|done|].
      exists c. by rewrite Hfs. }
    { intros. by rewrite Hfl. }
    rewrite Hfs', Hd'. split; [done|]. split; [by eapply quietly_trans|]. split; [done|].
    intros Hre Hno. apply Hnf'; [intros; apply Hre; by try constructor|].
    intros. by rewrite Hfl.
  - split; [done|]. split; [done|]. split; [done|]. intros Hre Hno.
    discriminate Hnf; [intros; apply Hre; by try constructor|done].
Qed.

Lemma walk_files_ok_readable d files dbs w dbs' w' :
  walk_files (walkFn d) files dbs w = ((dbs', None), w') ->
  forall f, f ∈ files -> is_payload f = true -> f_readerr f = None.
Proof.
  revert dbs w. induction files as [|f0 rest IH]; intros dbs w Hw f Hin Hp.
  { by apply elem_of_nil in Hin. }
  simpl in Hw. destruct (walkFn d f0 dbs w) as [[dbs1|e] w1] eqn:E0; [|done].
  apply elem_of_cons in Hin as [->|Hin]; [|by eapply IH].
  destruct (payload_guard f0 Hp) as [Hd Hg].
  revert E0. unfold walkFn, checksumFromReader, bind, fail. rewrite Hd, Hg.
  by destruct (f_readerr f0).
Qed.

Lemma extractArchive_env d a w : same_env w (snd (extractArchive d a w)).
Proof.
  unfold extractArchive, archiver_Walk, os_ReadFile, bind, syscall. simpl.
  destruct (faults w (ticks w) (OpRead a)); simpl; [by split|].
  destruct (fs_data w !! a) as [c|]; [|by split].
  destruct (archiver_open a c) as [[files stop]|]; [|by split].
  match goal with |- context [walk_files ?fn ?fs ?s ?w0] =>
    pose proof (walk_files_env d fs s w0) as Hw;
    destruct (walk_files fn fs s w0) as [[dbs [e|]] w4] end; exact Hw.
Qed.

Lemma Download_env d w : same_env w (snd (Download d w)).
Proof.
  rewrite Download_unfold.
  pose proof (expectedHash_frame d w) as (_ & _ & _ & H1).
  destruct (expectedHash d w) as [[h|?] w1]; [|done].
  pose proof (downloadArchive_env d h (archive_of d) w1) as H2.
  destruct (downloadArchive d h (archive_of d) w1) as [[[]|?] w2];
    [|by eapply same_env_trans].
  pose proof (createFile_env (md5file_of d) h w2) as H3.
  destruct (createFile (md5file_of d) h w2) as [[[]|?] w3];
    [|eapply same_env_trans; [|exact H3]; by eapply same_env_trans].
  pose proof (extractArchive_env d (archive_of d) w3) as H4.
  destruct (extractArchive d (archive_of d) w3) as [[dbs [e|]] w4];
    (eapply same_env_trans; [|exact H4]; eapply same_env_trans; [|exact H3];
     by eapply same_env_trans).
Qed.

Lemma extractArchive_ok_inv d a w dbs w' :
  extractArchive d a w = ((dbs, None), w') ->
  exists c files,
    fs_data w !! a = Some c /\ archiver_open a c = Ok (files, None) /\
    walk_files (walkFn d) files [] (tick (record (EvSys (OpRead a)) w)) = ((dbs, None), w').
Proof.
  unfold extractArchive, archiver_Walk, os_ReadFile, bind, syscall. simpl.
  destruct (faults w (ticks w) (OpRead a)); simpl; [done|].
  destruct (fs_data w !! a) as [c|]; [|done].
  destruct (archiver_open a c) as [[files stop]|] eqn:Eo; [|done].
  match goal with |- context [walk_files ?fn ?fs ?s ?w0] =>
    destruct (walk_files fn fs s w0) as [[dbs1 [e|]] w4] eqn:Ew end; [done|].
  intros; simplify_eq. eauto.
Qed.

Lemma extractArchive_current d a w c files stop :
  fs_data w !! a = Some c ->
  archiver_open a c = Ok (files, stop) ->
  (forall f, f ∈ files -> is_payload f = true -> current d f w) ->
  (forall t p, faults w t (OpStat p) = None) ->
  fs_data (snd (extractArchive d a w)) = fs_data w /\
  quietly w (snd (extractArchive d a w)) /\
  fst (fst (extractArchive d a w)) = [] /\
  (stop = None ->
   (forall f, f ∈ files -> is_payload f = true -> f_readerr f = None) ->
   (forall t op, faults w t op = None) ->
   snd (fst (extractArchive d a w)) = None).
Proof.
  intros Hc Ho Hcur Hs.
  unfold extractArchive, archiver_Walk, os_ReadFile, bind, syscall. simpl.
  destruct (faults w (ticks w) (OpRead a)) eqn:Hr; simpl.
  { split; [done|]. split; [quiet|]. split; [done|].
    intros _ _ Hnf. by rewrite Hnf in Hr. }
  rewrite Hc, Ho.
  match goal with |- context [walk_files ?fn ?fs ?s ?w0] =>
    destruct (walk_files_current d fs s w0) as (Hfs & Hh & Hd & Hnf);
    [by apply Hcur|by apply Hs|];
    destruct (walk_files fn fs s w0) as [[dbs1 [e|]] w4] eqn:Ew end;
  simpl in *;
  (split; [done|]; split; [eapply quietly_trans; [|exact Hh]; quiet|]; split; [done|]); done.
Qed.

(** C6, as the code has it: when no two payload entries with the same
    destination differ in checksum, [os.Stat] reports no error, and the
    archive, the marker and the destinations are different paths, a second
    call right after a successful first one sends the checksum request and
    no other, creates or writes no file but the marker, and leaves the
    archive and every destination file byte for byte as they were; when
    the system reports no failure at all it succeeds with no descriptors
    and the marker is as it was too. *)
Theorem Download_again_transfers_and_rewrites_nothing d w dbs w1 c files stop :
  Download d w = (Ok dbs, w1) ->
  fs_data w1 !! archive_of d = Some c ->
  archiver_open (archive_of d) c = Ok (files, stop) ->
  consistent d files ->
  md5file_of d <> archive_of d ->
  (forall f, is_payload f = true ->
     dbpath_of d f <> archive_of d /\ dbpath_of d f <> md5file_of d) ->
  (forall t p, faults w t (OpStat p) = None) ->
  (exists evs, trace (snd (Download d w1)) = trace w1 ++ evs /\
     http_requests evs = [geoip_query d (eid_Suffix (eid d) +:+ ".md5")] /\
     Forall (eq (md5file_of d)) (written evs)) /\
  (forall p, p <> md5file_of d -> fs_data (snd (Download d w1)) !! p = fs_data w1 !! p) /\
  (fst (Download d w1) = Ok [] \/ exists e, fst (Download d w1) = Err e) /\
  ((forall t op, faults w t op = None) ->
     fst (Download d w1) = Ok [] /\ fs_data (snd (Download d w1)) = fs_data w1).
Proof.
  intros H0 Hc Ho Hcons Hma Hpaths Hstat.
  pose proof (Download_env d w) as Henv. rewrite H0 in Henv. destruct Henv as [Hrem Hfl].
  simpl in Hrem, Hfl.
  (* the first call *)
  rewrite Download_unfold in H0.
  pose proof (expectedHash_same_remote d w w1 Hrem) as Hsame.
  destruct (expectedHash d w) as [[h|?] wa] eqn:E1; [|done].
  destruct (downloadArchive d h (archive_of d) wa) as [[[]|?] wb] eqn:E2; [|done].
  destruct (createFile (md5file_of d) h wb) as [[[]|?] wc] eqn:E3; [|done].
  destruct (extractArchive d (archive_of d) wc) as [[dbs0 [?|]] w1'] eqn:E4; [done|].
  simplify_eq.
  apply downloadArchive_ok_archive in E2 as (c0 & Hc0 & <-).
  apply createFile_ok_inv in E3 as [Hfsc _].
  assert (forall p, (forall f, is_payload f = true -> dbpath_of d f <> p) ->
            fs_data w1 !! p = fs_data wc !! p) as Hframe.
  { intros p Hp. replace w1 with (snd (extractArchive d (archive_of d) wc)) by (by rewrite E4).
    by apply extractArchive_frame. }
  apply extractArchive_ok_inv in E4 as (c1 & files1 & Hc1 & Ho1 & Hwalk).
  assert (fs_data w1 !! archive_of d = Some c0) as Ha1.
  { rewrite Hframe, Hfsc, lookup_insert_ne; [done..|]. intros; by apply Hpaths. }
  assert (c1 = c0) as -> by (rewrite Hfsc, lookup_insert_ne in Hc1; congruence).
  assert (c = c0) as -> by congruence.
  rewrite Ho in Ho1. injection Ho1 as <- ->.
  assert (fs_data w1 !! md5file_of d = Some (list_byte_of_string (md5sum c0))) as Hm1.
  { rewrite Hframe, Hfsc, lookup_insert_eq; [done|]. intros; by apply Hpaths. }
  pose proof (walk_files_ok_current _ _ _ _ _ _ Hwalk Hcons) as Hcur.
  pose proof (walk_files_ok_readable _ _ _ _ _ _ Hwalk) as Hread.
  clear Hwalk Hframe Hc1 Hfsc Hc0 E1.
  (* the second call *)
  rewrite Download_unfold. simpl in Hsame.
  pose proof (expectedHash_frame d w1) as (Hfs2 & _ & Htk2 & Hrem2 & Hfl2).
  pose proof (expectedHash_requests d w1 (md5sum c0) Hsame) as Hreq2.
  destruct (expectedHash d w1) as [[h2|?] w2]; simpl in *; [|done]. simplify_eq.
  destruct (downloadArchive_valid d (md5sum c0) (archive_of d) w2 c0) as (Hfs3 & Hq3 & Hres3 & Hok3);
    [by rewrite Hfs2|done|by rewrite Hfl2, Hfl|].
  apply (quietly_touching (md5file_of d)) in Hq3.
  pose proof (downloadArchive_env d (md5sum c0) (archive_of d) w2) as [Hrem3 Hfl3].
  destruct (downloadArchive d (md5sum c0) (archive_of d) w2) as [[[]|e3] w3]; simpl in *.
  2: { split; [by eapply after_request|]. rewrite Hfs3, Hfs2. repeat split; eauto.
       all: discriminate Hok3; by rewrite Hfl2, Hfl. }
  destruct (createFile_any (md5file_of d) (md5sum c0) w3) as (Hq4 & Hfs4 & Hok4).
  pose proof (touching_trans _ _ _ _ Hq3 Hq4) as Hq4'.
  pose proof (createFile_env (md5file_of d) (md5sum c0) w3) as [Hrem4 Hfl4].
  pose proof (createFile_ok (md5file_of d) (md5sum c0) w3) as Hnf4.
  destruct (createFile (md5file_of d) (md5sum c0) w3) as [[[]|e4] w4]; simpl in *.
  2: { split; [by eapply after_request|]. repeat split; eauto.
       - intros p Hp. by rewrite Hfs4, Hfs3, Hfs2.
       - destruct Hnf4 as [? _]; [by rewrite Hfl3, Hfl2, Hfl..|done].
       - destruct Hnf4 as [? _]; [by rewrite Hfl3, Hfl2, Hfl..|done]. }
  assert (fs_data w4 = fs_data w1) as Hfs4'.
  { rewrite Hok4, Hfs3, Hfs2 by done. by apply insert_id. }
  destruct (extractArchive_current d (archive_of d) w4 c0 files None)
    as (Hfs5 & Hq5 & Hdbs5 & Hnf5); [by rewrite Hfs4'|done| | |].
  { intros f Hf Hp. destruct (Hcur f Hf Hp) as (cf & ? & ?). exists cf. by rewrite Hfs4'. }
  { intros. by rewrite Hfl4, Hfl3, Hfl2, Hfl. }
  apply (quietly_touching (md5file_of d)) in Hq5.
  pose proof (touching_trans _ _ _ _ Hq4' Hq5) as Hq5'.
  destruct (extractArchive d (archive_of d) w4) as [[dbs5 [e5|]] w5]; simpl in *; subst dbs5;
    (split; [by eapply after_request|]); rewrite Hfs5, Hfs4'; repeat split; eauto.
  all: discriminate Hnf5; [done|done|]; intros; by rewrite Hfl4, Hfl3, Hfl2, Hfl.
Qed.

(** ** Failing to set the modification time *)

Lemma alike_calm w : alike w (calm w).
Proof. repeat split. intros t [] Hop; try done. by destruct (Hop p). Qed.

Lemma but_warnings_app t1 t2 :
  but_warnings (t1 ++ t2) = but_warnings t1 ++ but_warnings t2.
Proof. apply List.filter_app. Qed.

Ltac alike_start :=
  match goal with
  | Ha : alike ?w ?w' |- _ =>
      destruct w as [fs mt rem fl tk tr], w' as [fs' mt' rem' fl' tk' tr'];
      destruct Ha as (Hfs & Hrem & Htk & Hfl & Htr); simpl in Hfs, Hrem, Htk, Hfl, Htr;
      subst fs' rem' tk'
  end.

Ltac alike_step :=
  match goal with
  | Hfl : forall t op, _ -> ?fl' t op = ?fl t op |- context [?fl' ?t ?op] =>
      rewrite (Hfl t op) by (intros ?; discriminate)
  | |- _ => progress simpl in *
  | |- _ => rewrite lookup_insert_eq
  | Hx : context [<[?k:=_]> _ !! ?k] |- _ => rewrite lookup_insert_eq in Hx; simplify_eq
  | |- _ => case_match; simplify_eq
  end.

Ltac alike_end :=
  unfold alike; simpl;
  repeat match goal with
         | |- _ /\ _ => split
         | |- _ => done
         | |- _ => congruence
         | |- _ => progress (rewrite ?but_warnings_app, ?app_nil_r; simpl)
         | Htr : but_warnings _ = but_warnings _ |- _ => rewrite Htr; clear Htr
         end.

Lemma expectedHash_alike d w w' :
  alike w w' ->
  fst (expectedHash d w) = fst (expectedHash d w') /\
  alike (snd (expectedHash d w)) (snd (expectedHash d w')).
Proof. intros Ha. alike_start. go_unfold. repeat alike_step; alike_end. Qed.

Lemma downloadArchive_alike d h a w w' :
  alike w w' ->
  fst (downloadArchive d h a w) = fst (downloadArchive d h a w') /\
  alike (snd (downloadArchive d h a w)) (snd (downloadArchive d h a w')).
Proof. intros Ha. alike_start. go_unfold. repeat alike_step; alike_end. Qed.

Lemma createFile_alike p c w w' :
  alike w w' ->
  fst (createFile p c w) = fst (createFile p c w') /\
  alike (snd (createFile p c w)) (snd (createFile p c w')).
Proof. intros Ha. alike_start. go_unfold. repeat alike_step; alike_end. Qed.

Lemma walkFn_alike d f dbs w w' :
  alike w w' ->
  fst (walkFn d f dbs w) = fst (walkFn d f dbs w') /\
  alike (snd (walkFn d f dbs w)) (snd (walkFn d f dbs w')).
Proof. intros Ha. alike_start. go_unfold. repeat alike_step; alike_end. Qed.

Lemma walk_files_alike d files dbs w w' :
  alike w w' ->
  fst (walk_files (walkFn d) files dbs w) = fst (walk_files (walkFn d) files dbs w') /\
  alike (snd (walk_files (walkFn d) files dbs w)) (snd (walk_files (walkFn d) files dbs w')).
Proof.
  revert dbs w w'. induction files as [|f rest IH]; intros dbs w w' Ha; simpl; [done|].
  destruct (walkFn_alike d f dbs w w' Ha) as [Hr Hw].
  destruct (walkFn d f dbs w) as [[dbs1|e] w1], (walkFn d f dbs w') as [[dbs1'|e'] w1'];
    simplify_eq/=; [by apply IH|done].
Qed.

Lemma extractArchive_alike d a w w' :
  alike w w' ->
  fst (extractArchive d a w) = fst (extractArchive d a w') /\
  alike (snd (extractArchive d a w)) (snd (extractArchive d a w')).
Proof.
  intros Ha. unfold extractArchive, archiver_Walk, os_ReadFile, bind, syscall.
  match goal with |- context [walk_files ?fn _ ?s _] =>
    assert (forall files w0 w0', alike w0 w0' ->
      fst (walk_files fn files s w0) = fst (walk_files fn files s w0') /\
      alike (snd (walk_files fn files s w0)) (snd (walk_files fn files s w0'))) as Hwalk
      by (intros; by apply walk_files_alike);
    generalize dependent (@walk_files _ (list Entry) fn) end.
  intros walk Hwalk. alike_start. simpl.
  rewrite (Hfl tk (OpRead a)) by (intros ?; discriminate).
  destruct (fl tk (OpRead a)); simpl; [alike_end|].
  destruct (fs !! a) as [c|]; [|alike_end].
  destruct (archiver_open a c) as [[files stop]|]; [|alike_end].
  match goal with |- context [walk files [] ?w0] =>
    match goal with |- context [walk files [] ?w0'] =>
      lazymatch w0' with w0 => fail | _ =>
        destruct (Hwalk files w0 w0') as [Hr Hw]; [alike_end|];
        destruct (walk files [] w0) as [[dbs1 e1] w1], (walk files [] w0') as [[dbs1' e1'] w1']
      end end end.
  simpl in *. simplify_eq. by destruct e1'.
Qed.

Lemma Download_alike d w w' :
  alike w w' ->
  fst (Download d w) = fst (Download d w') /\
  alike (snd (Download d w)) (snd (Download d w')).
Proof.
  intros Ha. rewrite !Download_unfold.
  destruct (expectedHash_alike d w w' Ha) as [Hr1 Ha1].
  destruct (expectedHash d w) as [[h|?] w1], (expectedHash d w') as [[h'|?] w1'];
    simplify_eq/=; [|done].
  destruct (downloadArchive_alike d h' (archive_of d) w1 w1' Ha1) as [Hr2 Ha2].
  destruct (downloadArchive d h' (archive_of d) w1) as [[[]|?] w2],
           (downloadArchive d h' (archive_of d) w1') as [[[]|?] w2'];
    simplify_eq/=; [|done].
  destruct (createFile_alike (md5file_of d) h' w2 w2' Ha2) as [Hr3 Ha3].
  destruct (createFile (md5file_of d) h' w2) as [[[]|?] w3],
           (createFile (md5file_of d) h' w2') as [[[]|?] w3'];
    simplify_eq/=; [|done].
  destruct (extractArchive_alike d (archive_of d) w3 w3' Ha3) as [Hr4 Ha4].
  destruct (extractArchive d (archive_of d) w3) as [[dbs [?|]] w4],
           (extractArchive d (archive_of d) w3') as [[dbs' [?|]] w4'];
    by simplify_eq/=.
Qed.

Lemma extractEntry_chtimes_fails d f fields dbpath reader dbs w e :
  faults w (ticks w) (OpCreate dbpath) = None ->
  faults w (S (ticks w)) (OpWrite dbpath) = None ->
  faults w (S (S (ticks w))) (OpChtimes dbpath) = Some e ->
  fst (extractEntry d f fields dbpath reader dbs w) = Ok (dbs ++ [f]) /\
  fs_data (snd (extractEntry d f fields dbpath reader dbs w)) = <[dbpath := reader]> (fs_data w) /\
  fs_mtime (snd (extractEntry d f fields dbpath reader dbs w)) = fs_mtime w /\
  trace (snd (extractEntry d f fields dbpath reader dbs w)) =
    trace w ++ [EvLog Debug fields "Extracting database";
                EvSys (OpCreate dbpath); EvSys (OpWrite dbpath); EvSys (OpChtimes dbpath);
                EvLog Warn (fields ++ [("error", e)]) "Cannot preserve modtime of database file"].
Proof.
  intros Hc Hw Ht. go_unfold. simpl. rewrite Hc. simpl. rewrite Hw. simpl. rewrite Ht. simpl.
  rewrite lookup_insert_eq, insert_insert_eq, <- !app_assoc. done.
Qed.

(** C9: a failure of [os.Chtimes] changes neither what [Download] returns
    nor what the files hold: the run is the run of the world in which
    [os.Chtimes] never fails, up to the warnings logged. At the entry whose
    modification time cannot be set, the failure is logged as a warning,
    the bytes are in place and the entry is appended to the result. *)
Theorem Download_survives_chtimes_failure :
  (forall d w,
     fst (Download d w) = fst (Download d (calm w)) /\
     fs_data (snd (Download d w)) = fs_data (snd (Download d (calm w))) /\
     but_warnings (trace (snd (Download d w))) =
       but_warnings (trace (snd (Download d (calm w))))) /\
  (forall d f fields dbpath reader dbs w e,
     faults w (ticks w) (OpCreate dbpath) = None ->
     faults w (S (ticks w)) (OpWrite dbpath) = None ->
     faults w (S (S (ticks w))) (OpChtimes dbpath) = Some e ->
     fst (extractEntry d f fields dbpath reader dbs w) = Ok (dbs ++ [f]) /\
     fs_data (snd (extractEntry d f fields dbpath reader dbs w)) =
       <[dbpath := reader]> (fs_data w) /\
     fs_mtime (snd (extractEntry d f fields dbpath reader dbs w)) = fs_mtime w /\
     trace (snd (extractEntry d f fields dbpath reader dbs w)) =
       trace w ++ [EvLog Debug fields "Extracting database";
                   EvSys (OpCreate dbpath); EvSys (OpWrite dbpath);
                   EvSys (OpChtimes dbpath);
                   EvLog Warn (fields ++ [("error", e)])
                     "Cannot preserve modtime of database file"]).
Proof.
  split.
  - intros d w. destruct (Download_alike d w (calm w) (alike_calm w)) as (? & ? & _ & _ & _ & ?).
    done.
  - intros. by apply extractEntry_chtimes_fails.
Qed.

(** ** Further properties of the steps *)

Lemma status_ok status : negb (status =? StatusOK) = false -> status = StatusOK.
Proof. intros Hs. apply negb_false_iff in Hs. by apply Z.eqb_eq. Qed.

(** [expectedHash] returns the body of the 200 answer as it is, byte for
    byte; it sends the one request and makes no system call. *)
Theorem expectedHash_returns_body_verbatim d w h :
  fst (expectedHash d w) = Ok h ->
  exists body,
    remote w (geoip_query d (eid_Suffix (eid d) +:+ ".md5")) = HttpResp StatusOK body /\
    body_err body = None /\
    h = string_of_list_byte (body_data body) /\
    list_byte_of_string h = body_data body /\
    trace (snd (expectedHash d w)) =
      trace w ++ [EvHttp (geoip_query d (eid_Suffix (eid d) +:+ ".md5"))] /\
    ticks (snd (expectedHash d w)) = ticks w /\
    fs_data (snd (expectedHash d w)) = fs_data w.
Proof.
  go_unfold. intros Hr. go_cases.
  match goal with Hs : negb _ = false |- _ => apply status_ok in Hs; subst end.
  eexists. split; [eassumption|]. split; [done|]. split; [done|].
  split; [apply list_byte_of_string_of_list_byte|done].
Qed.

Lemma expectedHash_trace d w :
  trace (snd (expectedHash d w)) = trace w \/
  trace (snd (expectedHash d w)) =
    trace w ++ [EvHttp (geoip_query d (eid_Suffix (eid d) +:+ ".md5"))].
Proof. go_unfold. go_cases; auto. Qed.

(** When the checksum cannot be obtained, [Download] stops there: the
    error is wrapped, no system call was made, every file is as it was,
    and at most the checksum request was sent. *)
Theorem Download_stops_without_checksum d w e :
  fst (expectedHash d w) = Err e ->
  fst (Download d w) = Err (Wrap e "Cannot get archive MD5 hash") /\
  ticks (snd (Download d w)) = ticks w /\
  fs_data (snd (Download d w)) = fs_data w /\
  fs_mtime (snd (Download d w)) = fs_mtime w /\
  (trace (snd (Download d w)) = trace w \/
   trace (snd (Download d w)) =
     trace w ++ [EvHttp (geoip_query d (eid_Suffix (eid d) +:+ ".md5"))]).
Proof.
  intros He. rewrite Download_unfold.
  pose proof (expectedHash_frame d w) as (Hfs & Hmt & Htk & _).
  pose proof (expectedHash_trace d w) as Htr.
  destruct (expectedHash d w) as [[h|e'] w1]; simplify_eq/=. done.
Qed.

(** [downloadArchive] creates, writes and stamps no file but the archive. *)
Theorem downloadArchive_touches_archive_only d expHash archive w p :
  p <> archive ->
  fs_data (snd (downloadArchive d expHash archive w)) !! p = fs_data w !! p /\
  fs_mtime (snd (downloadArchive d expHash archive w)) = fs_mtime w.
Proof.
  intros Hp. go_unfold. go_cases; rewrite ?lookup_insert_ne by done; done.
Qed.

(** An answer other than 200 to the archive request costs nothing: every
    file, a stale archive included, is as it was. *)
Theorem downloadArchive_refused_keeps_files d expHash archive w :
  (forall body, remote w (geoip_query d (eid_Suffix (eid d))) <> HttpResp StatusOK body) ->
  fs_data (snd (downloadArchive d expHash archive w)) = fs_data w /\
  (fst (downloadArchive d expHash archive w) = Ok tt ->
   exists c, fs_data w !! archive = Some c /\ md5sum c = expHash).
Proof.
  intros Hre. go_unfold. go_cases;
    try match goal with
        | Hs : negb (_ =? StatusOK) = false, Hr : remote _ _ = HttpResp _ ?b |- _ =>
            apply status_ok in Hs; subst; by destruct (Hre b)
        end;
    (split; [done|]); try done.
  all: intros _; match goal with
       | E : (_ =? _)%string = true |- _ => apply String.eqb_eq in E; subst; eauto
       end.
Qed.

(** A transfer that breaks off leaves what was received at the archive
    path, in place of what was there: nothing is cleaned up. *)
Theorem downloadArchive_interrupted_transfer d expHash archive w body e :
  NewRequest_error (geoip_url d) = None ->
  remote w (geoip_query d (eid_Suffix (eid d))) = HttpResp StatusOK body ->
  body_err body = Some e ->
  (forall t, faults w t (OpRead archive) = None) ->
  (forall t, faults w t (OpCreate archive) = None) ->
  (forall t, faults w t (OpWrite archive) = None) ->
  (forall c, fs_data w !! archive = Some c -> md5sum c <> expHash) ->
  fst (downloadArchive d expHash archive w) = Err (Wrap e "Cannot download archive") /\
  fs_data (snd (downloadArchive d expHash archive w)) = <[archive := body_data body]> (fs_data w).
Proof.
  intros Hq Hre Hbe Hr Hc Hw Hstale.
  assert (forall c, fs_data w !! archive = Some c -> (expHash =? md5sum c)%string = false) as Hs.
  { intros c Hl. apply String.eqb_neq. intros ->. by eapply Hstale. }
  assert (forall w1, fs_data w1 = fs_data w -> remote w1 = remote w -> faults w1 = faults w ->
          fst (fetchArchive d expHash archive w1) = Err (Wrap e "Cannot download archive") /\
          fs_data (snd (fetchArchive d expHash archive w1)) =
            <[archive := body_data body]> (fs_data w)) as Hfetch.
  { intros w1 E1 E2 E3. go_unfold. simpl.
    rewrite Hq; simpl; rewrite E2, Hre; simpl; rewrite E3, Hc; simpl;
    rewrite Hw; simpl; rewrite Hbe; simpl.
    by rewrite lookup_insert_eq, insert_insert_eq, E1. }
  unfold downloadArchive, os_Stat, syscall. simpl.
  destruct (faults w (ticks w) (OpStat archive)); [by apply Hfetch|].
  destruct (fs_data w !! archive) as [c|] eqn:El; [|by apply Hfetch].
  unfold wrapping, bind, checksumFromFile, os_ReadFile, bind, syscall, ret. simpl.
  rewrite Hr. simpl. rewrite El. simpl. rewrite (Hs c) by done. by apply Hfetch.
Qed.

Lemma downloadArchive_ok_source d h a w w' :
  downloadArchive d h a w = (Ok tt, w') ->
  exists c, md5sum c = h /\ fs_data w' !! a = Some c /\
    (fs_data w !! a = Some c \/
     exists body, remote w (geoip_query d (eid_Suffix (eid d))) = HttpResp StatusOK body /\
                  body_err body = None /\ body_data body = c).
Proof.
  go_unfold. intros Hr.
  repeat (simpl in *; case_match; simplify_map_eq); simpl in *;
    repeat match goal with
    | E : (_ =? _)%string = true |- _ => apply String.eqb_eq in E
    | E : negb (_ =? _)%string = false |- _ =>
        apply negb_false_iff, String.eqb_eq in E
    | Hs : negb (_ =? StatusOK) = false |- _ => apply status_ok in Hs; subst
    end; eauto 10.
Qed.

(** [Download] succeeds only on bytes that have the announced checksum:
    bytes that were at the archive path already, or the bytes of a 200
    answer read to the end. *)
Theorem Download_succeeds_on_checked_bytes_only d w dbs w' :
  Download d w = (Ok dbs, w') ->
  exists h c,
    fst (expectedHash d w) = Ok h /\ md5sum c = h /\
    (fs_data w !! archive_of d = Some c \/
     exists body, remote w (geoip_query d (eid_Suffix (eid d))) = HttpResp StatusOK body /\
                  body_err body = None /\ body_data body = c).
Proof.
  rewrite Download_unfold.
  pose proof (expectedHash_frame d w) as (Hfs & _ & _ & Hrem & _).
  destruct (expectedHash d w) as [[h|?] w1]; [|done]. simpl in *.
  destruct (downloadArchive d h (archive_of d) w1) as [[[]|?] w2] eqn:E2; [|done].
  intros _. apply downloadArchive_ok_source in E2 as (c & Hh & _ & Hsrc).
  exists h, c. rewrite <- Hfs, <- Hrem. done.
Qed.

Lemma currentHash_eq d w :
  fs_data (snd (currentHash d w)) = fs_data w /\
  fst (currentHash d w) =
    match faults w (ticks w) (OpStat (md5file_of d)), fs_data w !! md5file_of d with
    | Some e, _ => Err e
    | None, None => Ok ""
    | None, Some c =>
        match faults w (S (ticks w)) (OpRead (md5file_of d)) with
        | Some e => Err (Wrap e "Cannot read current archive hash")
        | None => Ok (string_of_list_byte c)
        end
    end.
Proof. go_unfold. go_cases; (split; [done|congruence]). Qed.

(** Once [Download] is past the marker write, [currentHash] gives back the
    checksum [expectedHash] returned. *)
Theorem currentHash_after_Download d w expHash w1 w2 :
  expectedHash d w = (Ok expHash, w1) ->
  downloadArchive d expHash (archive_of d) w1 = (Ok tt, w2) ->
  faults w2 (ticks w2) (OpCreate (md5file_of d)) = None ->
  faults w2 (S (ticks w2)) (OpWrite (md5file_of d)) = None ->
  (forall f, is_payload f = true -> dbpath_of d f <> md5file_of d) ->
  faults (snd (Download d w)) (ticks (snd (Download d w))) (OpStat (md5file_of d)) = None ->
  faults (snd (Download d w)) (S (ticks (snd (Download d w)))) (OpRead (md5file_of d)) = None ->
  fst (currentHash d (snd (Download d w))) = Ok expHash.
Proof.
  intros He Hd Hc Hw Hp Hs Hr.
  assert (fs_data (snd (Download d w)) !! md5file_of d = Some (list_byte_of_string expHash)) as Hm.
  { rewrite Download_unfold, He, Hd.
    destruct (createFile_ok (md5file_of d) expHash w2 Hc Hw) as [Hres Hfs].
    destruct (createFile (md5file_of d) expHash w2) as [[[]|?] w3]; simplify_eq/=.
    pose proof (extractArchive_frame d (archive_of d) w3 (md5file_of d) Hp) as Hx.
    destruct (extractArchive d (archive_of d) w3) as [[dbs [err|]] w4]; simpl in *;
      rewrite Hx, Hfs; apply lookup_insert_eq. }
  destruct (currentHash_eq d (snd (Download d w))) as [_ ->].
  by rewrite Hs, Hm, Hr, string_of_list_byte_of_string.
Qed.

Lemma walkFn_frame_mtime d f dbs w p :
  (is_payload f = true -> dbpath_of d f <> p) ->
  fs_mtime (snd (walkFn d f dbs w)) !! p = fs_mtime w !! p.
Proof.
  intros Hp. destruct (is_payload f) eqn:E.
  2: { by rewrite walkFn_nonpayload. }
  specialize (Hp eq_refl). unfold dbpath_of in Hp.
  go_unfold. go_cases; rewrite ?lookup_insert_ne by done; done.
Qed.

Lemma walk_files_frame_mtime d files dbs w p :
  (forall f, f ∈ files -> is_payload f = true -> dbpath_of d f <> p) ->
  fs_mtime (snd (walk_files (walkFn d) files dbs w)) !! p = fs_mtime w !! p.
Proof.
  revert dbs w. induction files as [|f files IH]; intros dbs w Hp; simpl; [done|].
  pose proof (walkFn_frame_mtime d f dbs w p) as Hf.
  destruct (walkFn d f dbs w) as [[dbs'|e] w']; simpl in *.
  - rewrite IH; [apply Hf|]; intros; apply Hp; by try constructor.
  - apply Hf. apply Hp. constructor.
Qed.

(** [extractArchive], with the walk of the library spelled out. *)
Lemma extractArchive_unfold d a w :
  extractArchive d a w =
    match faults w (ticks w) (OpRead a) with
    | Some e => (([], Some e), tick (record (EvSys (OpRead a)) w))
    | None =>
        match fs_data w !! a with
        | None => (([], Some (not_exist a)), tick (record (EvSys (OpRead a)) w))
        | Some c =>
            match archiver_open a c with
            | Err e => (([], Some e), tick (record (EvSys (OpRead a)) w))
            | Ok (files, stop) =>
                match walk_files (walkFn d) files [] (tick (record (EvSys (OpRead a)) w)) with
                | ((dbs, Some e), w2) => ((dbs, Some e), w2)
                | ((dbs, None), w2) => ((dbs, stop), w2)
                end
            end
        end
    end.
Proof.
  unfold extractArchive, archiver_Walk, os_ReadFile, bind, syscall. simpl.
  destruct (faults w (ticks w) (OpRead a)); simpl; [done|].
  destruct (fs_data w !! a) as [c|]; [|done].
  by destruct (archiver_open a c) as [[files stop]|].
Qed.

(** Extraction creates, writes and stamps no file but the destinations of
    the payload entries of the archive: the archive and the marker are as
    they were, whatever the outcome. *)
Theorem extractArchive_touches_destinations_only d archive w content files stop p :
  fs_data w !! archive = Some content ->
  archiver_open archive content = Ok (files, stop) ->
  (forall f, f ∈ files -> is_payload f = true -> dbpath_of d f <> p) ->
  fs_data (snd (extractArchive d archive w)) !! p = fs_data w !! p /\
  fs_mtime (snd (extractArchive d archive w)) !! p = fs_mtime w !! p.
Proof.
  intros Hc Ho Hp. rewrite extractArchive_unfold.
  destruct (faults w (ticks w) (OpRead archive)); [done|]. rewrite Hc, Ho.
  pose proof (walk_files_frame d files [] (tick (record (EvSys (OpRead archive)) w)) p Hp) as H1.
  pose proof (walk_files_frame_mtime d files [] (tick (record (EvSys (OpRead archive)) w)) p Hp)
    as H2.
  by destruct (walk_files _ _ _ _) as [[dbs [e|]] w2].
Qed.

(** After a successful extraction the destination of every payload entry
    holds bytes with the checksum of the entry, provided entries sharing a
    destination agree; and the archive held no damage after its entries. *)
Theorem extractArchive_ok_makes_current d archive w dbs w' content files stop :
  extractArchive d archive w = ((dbs, None), w') ->
  fs_data w !! archive = Some content ->
  archiver_open archive content = Ok (files, stop) ->
  consistent d files ->
  stop = None /\
  (forall f, f ∈ files -> is_payload f = true -> f_readerr f = None /\ current d f w').
Proof.
  intros Hx Hc Ho Hcons.
  apply extractArchive_ok_inv in Hx as (c & files' & Hc' & Ho' & Hwalk).
  rewrite Hc in Hc'. injection Hc' as <-. rewrite Ho in Ho'. injection Ho' as <- ->.
  split; [done|]. intros f Hf Hp. split.
  - by eapply walk_files_ok_readable.
  - by eapply walk_files_ok_current.
Qed.

(** How the walk composes: the entries after a first run of entries are
    processed from where that run ended, if it ended without error. *)
Lemma walk_files_app {S} (fn : Entry -> S -> M S) l1 l2 s w :
  walk_files fn (l1 ++ l2) s w =
    match walk_files fn l1 s w with
    | ((s1, None), w1) => walk_files fn l2 s1 w1
    | r => r
    end.
Proof.
  revert s w. induction l1 as [|f l1 IH]; intros s w; simpl; [done|].
  destruct (fn f s w) as [[s'|e] w']; [apply IH|done].
Qed.

(** The walk fails closed and rolls nothing back: at the first entry whose
    step fails it stops in the world that step left, with the descriptors
    appended so far; the entries after it are not looked at. *)
Theorem walk_stops_at_first_error d l1 f l2 dbs w dbs1 w1 e w2 :
  walk_files (walkFn d) l1 dbs w = ((dbs1, None), w1) ->
  walkFn d f dbs1 w1 = (Err e, w2) ->
  walk_files (walkFn d) (l1 ++ f :: l2) dbs w = ((dbs1, Some (archiver_walking f e)), w2) /\
  is_payload f = true /\
  (forall p, p <> dbpath_of d f -> fs_data w2 !! p = fs_data w1 !! p).
Proof.
  intros H1 H2. rewrite walk_files_app, H1. simpl. rewrite H2. split; [done|].
  destruct (is_payload f) eqn:Hp.
  - split; [done|]. intros p Hne.
    replace w2 with (snd (walkFn d f dbs1 w1)) by (by rewrite H2).
    apply walkFn_frame. auto.
  - by rewrite walkFn_nonpayload in H2.
Qed.

(** An entry is appended to the result only once its bytes are in place at
    its destination; when [os.Chtimes] does not fail the file carries the
    entry's modification time as well. *)
Theorem walkFn_reports_written_entry d f dbs w dbs' w' :
  walkFn d f dbs w = (Ok dbs', w') ->
  dbs' <> dbs ->
  dbs' = dbs ++ [f] /\
  is_payload f = true /\
  fs_data w' !! dbpath_of d f = Some (f_data f) /\
  ((forall t, faults w t (OpChtimes (dbpath_of d f)) = None) ->
   fs_mtime w' !! dbpath_of d f = Some (f_ModTime f)).
Proof.
  intros Hr Hne. destruct (is_payload f) eqn:Hp.
  2: { rewrite walkFn_nonpayload in Hr by done. by simplify_eq. }
  unfold dbpath_of. revert Hr. go_unfold. intros Hr.
  repeat (simpl in *; case_match; simplify_map_eq); simpl in *; try done;
    (split; [done|]; split; [done|]; split; [done|]; intros Hc);
    try done; congruence.
Qed.

(** *** The extension filter, by the end of the name *)

Lemma Ext_scan_app stem t r :
  Ext_scan t = Some r -> Ext_scan (stem +:+ t) = Some r.
Proof.
  intros Ht. induction stem as [|c stem IH]; [done|].
  change (String c stem +:+ t) with (String c (stem +:+ t)). simpl. by rewrite IH.
Qed.

Lemma Ext_scan_suffix s r :
  Ext_scan s = Some r -> r <> "" -> exists stem, s = stem +:+ r.
Proof.
  revert r. induction s as [|c s IH]; intros r Hs Hr; [done|].
  simpl in Hs. destruct (Ext_scan s) as [r'|] eqn:E.
  - injection Hs as ->. destruct (IH r eq_refl Hr) as [stem ->].
    by exists (String c stem).
  - destruct (Ascii.eqb c "."); [injection Hs as <-; by exists ""|].
    destruct (Ascii.eqb c "/"); by simplify_eq.
Qed.

Lemma Ext_is e s :
  Ext_scan e = Some e -> e <> "" ->
  Ext s = e <-> exists stem, s = stem +:+ e.
Proof.
  intros He Hne. unfold Ext. split.
  - destruct (Ext_scan s) as [r|] eqn:E; simpl; [|by intros <-].
    intros ->. by eapply Ext_scan_suffix.
  - intros [stem ->]. by rewrite (Ext_scan_app stem e e He).
Qed.

(** The entries the callback works on are exactly those that are no
    directory and whose name ends in [.csv] or in [.mmdb] (in lower case,
    and a name that is nothing but the extension counts). All others it
    passes over; on each of these it never returns without effect: either
    the entry cannot be read and its error is returned, or the callback
    goes on to look at the entry's destination with [os.Stat]. *)
Theorem payload_by_name_ending f :
  (is_payload f = true <->
   f_IsDir f = false /\
   exists stem, f_Name f = stem +:+ ".csv" \/ f_Name f = stem +:+ ".mmdb") /\
  (forall d dbs w, is_payload f = false -> walkFn d f dbs w = (Ok dbs, w)) /\
  (forall d dbs w,
     f_IsDir f = false ->
     (exists stem, f_Name f = stem +:+ ".csv" \/ f_Name f = stem +:+ ".mmdb") ->
     walkFn d f dbs w <> (Ok dbs, w) /\
     ((exists e, f_readerr f = Some e /\ walkFn d f dbs w = (Err e, w)) \/
      (f_readerr f = None /\
       exists evs, trace (snd (walkFn d f dbs w)) =
                   trace w ++ EvSys (OpStat (dbpath_of d f)) :: evs))).
Proof.
  assert (is_payload f = true <->
          f_IsDir f = false /\
          exists stem, f_Name f = stem +:+ ".csv" \/ f_Name f = stem +:+ ".mmdb") as Hiff.
  { unfold is_payload. rewrite andb_true_iff, negb_true_iff, orb_true_iff, !String.eqb_eq.
    rewrite (Ext_is ".csv"), (Ext_is ".mmdb") by done. split.
    - intros [Hd [[stem Hs]|[stem Hs]]]; eauto.
    - intros [Hd [stem [Hs|Hs]]]; eauto. }
  split; [exact Hiff|]. split; [intros; by apply walkFn_nonpayload|].
  intros d dbs w Hd Hn.
  assert (is_payload f = true) as Hp by (by apply Hiff).
  pose proof (walkFn_payload_examined d f dbs w Hp) as Hex.
  split; [|exact Hex].
  intros Heq. rewrite Heq in Hex. destruct Hex as [(e & _ & He)|(_ & evs & He)]; [done|].
  simpl in He. rewrite <- (app_nil_r (trace w)) in He at 1.
  by apply app_inv_head in He.
Qed.

(** *** The requests of a call *)

Lemma downloadArchive_requests d h a w :
  http_requests (trace (snd (downloadArchive d h a w))) = http_requests (trace w) \/
  http_requests (trace (snd (downloadArchive d h a w))) =
    http_requests (trace w) ++ [geoip_query d (eid_Suffix (eid d))].
Proof.
  go_unfold. go_cases; rewrite <- ?app_assoc, http_requests_app; simpl;
    rewrite ?app_nil_r; auto.
Qed.

Lemma walkFn_requests d f dbs w :
  http_requests (trace (snd (walkFn d f dbs w))) = http_requests (trace w).
Proof.
  go_unfold. go_cases; rewrite <- ?app_assoc, ?http_requests_app; simpl;
    rewrite ?app_nil_r; done.
Qed.

Lemma walk_files_requests d files dbs w :
  http_requests (trace (snd (walk_files (walkFn d) files dbs w))) = http_requests (trace w).
Proof.
  revert dbs w. induction files as [|f files IH]; intros dbs w; simpl; [done|].
  pose proof (walkFn_requests d f dbs w) as Hf.
  destruct (walkFn d f dbs w) as [[dbs'|e] w']; simpl in *; [by rewrite IH|done].
Qed.

Lemma extractArchive_requests d a w :
  http_requests (trace (snd (extractArchive d a w))) = http_requests (trace w).
Proof.
  assert (http_requests (trace (tick (record (EvSys (OpRead a)) w))) = http_requests (trace w))
    as H0 by (simpl; rewrite http_requests_app; simpl; apply app_nil_r).
  rewrite extractArchive_unfold.
  destruct (faults w (ticks w) (OpRead a)); [done|].
  destruct (fs_data w !! a) as [c|]; [|done].
  destruct (archiver_open a c) as [[files stop]|]; [|done].
  pose proof (walk_files_requests d files [] (tick (record (EvSys (OpRead a)) w))) as H1.
  destruct (walk_files _ _ _ _) as [[dbs [e|]] w2]; simpl in *; congruence.
Qed.

(** One call of [Download] sends at most two requests: the checksum
    request first, and after it at most the archive request; it does not
    succeed without having sent the first. *)
Theorem Download_sends_at_most_two_requests d w :
  exists l, http_requests (trace (snd (Download d w))) = http_requests (trace w) ++ l /\
    (l = [] \/
     l = [geoip_query d (eid_Suffix (eid d) +:+ ".md5")] \/
     l = [geoip_query d (eid_Suffix (eid d) +:+ ".md5"); geoip_query d (eid_Suffix (eid d))]) /\
    (forall dbs, fst (Download d w) = Ok dbs -> l <> []).
Proof.
  rewrite Download_unfold.
  pose proof (expectedHash_trace d w) as Ht.
  pose proof (expectedHash_requests d w) as Hq.
  destruct (expectedHash d w) as [[h|e] w1]; simpl in *.
  2: { destruct Ht as [->| ->].
       - exists []. rewrite app_nil_r. auto.
       - eexists. rewrite http_requests_app. simpl. split; [done|]. auto. }
  specialize (Hq h eq_refl). clear Ht.
  assert (http_requests (trace w1) =
          http_requests (trace w) ++ [geoip_query d (eid_Suffix (eid d) +:+ ".md5")]) as H1.
  { rewrite Hq, http_requests_app. done. }
  pose proof (downloadArchive_requests d h (archive_of d) w1) as H2.
  destruct (downloadArchive d h (archive_of d) w1) as [[[]|e] w2]; simpl in *.
  2: { destruct H2 as [-> | ->]; rewrite H1, <- ?app_assoc; eexists; (split; [done|]);
       simpl; auto. }
  destruct (createFile_any (md5file_of d) h w2) as ((evs & H3 & H3' & _) & _ & _).
  assert (http_requests (trace (snd (createFile (md5file_of d) h w2))) = http_requests (trace w2))
    as H3''.
  { rewrite H3, http_requests_app, H3'. apply app_nil_r. }
  destruct (createFile (md5file_of d) h w2) as [[[]|e] w3]; simpl in *.
  2: { rewrite H3''. destruct H2 as [-> | ->]; rewrite H1, <- ?app_assoc; eexists;
       (split; [done|]); simpl; auto. }
  pose proof (extractArchive_requests d (archive_of d) w3) as H4.
  destruct (extractArchive d (archive_of d) w3) as [[dbs [e|]] w4]; simpl in *;
    rewrite H4, H3''; destruct H2 as [-> | ->]; rewrite H1, <- ?app_assoc; eexists;
    (split; [done|]); simpl; auto.
Qed.

(** *** What a successful call leaves *)

(** After a successful [Download] the archive path holds bytes with the
    announced checksum, the marker holds that checksum, the descriptors
    returned are payload entries of that archive in walk order, and the
    destination of every payload entry holds bytes with the checksum of the
    entry (provided entries sharing a destination agree). *)
Theorem Download_ok_state d w dbs w' :
  Download d w = (Ok dbs, w') ->
  md5file_of d <> archive_of d ->
  (forall f, is_payload f = true ->
     dbpath_of d f <> archive_of d /\ dbpath_of d f <> md5file_of d) ->
  exists h c files,
    fst (expectedHash d w) = Ok h /\
    fs_data w' !! archive_of d = Some c /\ md5sum c = h /\
    fs_data w' !! md5file_of d = Some (list_byte_of_string h) /\
    archiver_open (archive_of d) c = Ok (files, None) /\
    sublist dbs (List.filter is_payload files) /\
    (consistent d files -> forall f, f ∈ files -> is_payload f = true -> current d f w').
Proof.
  intros H0 Hma Hpaths. rewrite Download_unfold in H0.
  destruct (expectedHash d w) as [[h|?] wa] eqn:E1; [|done].
  destruct (downloadArchive d h (archive_of d) wa) as [[[]|?] wb] eqn:E2; [|done].
  destruct (createFile (md5file_of d) h wb) as [[[]|?] wc] eqn:E3; [|done].
  destruct (extractArchive d (archive_of d) wc) as [[dbs0 [?|]] w1'] eqn:E4; [done|].
  simplify_eq.
  apply downloadArchive_ok_archive in E2 as (c & Hc & Hh).
  apply createFile_ok_inv in E3 as [Hfsc _].
  assert (forall p, (forall f, is_payload f = true -> dbpath_of d f <> p) ->
            fs_data w' !! p = fs_data wc !! p) as Hframe.
  { intros p Hp. replace w' with (snd (extractArchive d (archive_of d) wc)) by (by rewrite E4).
    by apply extractArchive_frame. }
  apply extractArchive_ok_inv in E4 as (c1 & files & Hc1 & Ho & Hwalk).
  assert (c1 = c) as -> by (rewrite Hfsc, lookup_insert_ne in Hc1; congruence).
  exists h, c, files. split; [done|].
  split. { rewrite Hframe, Hfsc, lookup_insert_ne; [done..|]. intros; by apply Hpaths. }
  split; [done|].
  split. { rewrite Hframe, Hfsc, lookup_insert_eq; [done|]. intros; by apply Hpaths. }
  split; [done|]. split.
  - destruct (walk_files_result d files [] (tick (record (EvSys (OpRead (archive_of d))) wc)))
      as (l & Hl & Hsub). rewrite Hwalk in Hl. simpl in Hl. by subst.
  - intros Hcons. by eapply walk_files_ok_current.
Qed.

(** ** What a message holds *)

Lemma prefix_append (sub post : string) : String.prefix sub (sub +:+ post) = true.
Proof.
  induction sub as [|c sub IH]; [by destruct post|].
  change (String c sub +:+ post) with (String c (sub +:+ post)). simpl.
  destruct (ascii_dec c c); [exact IH|done].
Qed.

Lemma occurs_unfold sub s :
  occurs sub s =
    String.prefix sub s ||
    match s with EmptyString => false | String _ s' => occurs sub s' end.
Proof. by destruct s. Qed.

Lemma contains_occurs sub s : contains sub s -> occurs sub s = true.
Proof.
  intros (pre & post & ->). induction pre as [|c pre IH].
  - change ("" +:+ sub +:+ post) with (sub +:+ post).
    by rewrite occurs_unfold, prefix_append.
  - change (String c pre +:+ sub +:+ post) with (String c (pre +:+ sub +:+ post)).
    rewrite occurs_unfold, IH. apply orb_true_r.
Qed.

End Properties.

(** * Examples *)

Import Demo.

Example paths : archive_of dl = archive_path /\ md5file_of dl = marker_path.
Proof. by vm_compute. Qed.

Example first_call :
  fst (Download dl world0) = Ok [city; blocks] /\
  fs_data world_after !! archive_path = Some archive_bytes /\
  fs_data world_after !! marker_path = Some (list_byte_of_string "2716") /\
  fs_data world_after !! "out/City.mmdb" = Some (list_byte_of_string "MMDB1") /\
  fs_data world_after !! "out/blocks.csv" = Some (list_byte_of_string "1,2") /\
  fs_data world_after !! "out/README.txt" = None.
Proof. by vm_compute. Qed.

Lemma downloadArchive_skips_valid_archive_witness :
  fs_data world_after !! archive_path = Some archive_bytes /\
  md5sum archive_bytes = "2716" /\
  faults world_after (ticks world_after) (OpStat archive_path) = None /\
  faults world_after (S (ticks world_after)) (OpRead archive_path) = None /\
  fst (downloadArchive dl "2716" archive_path world_after) = Ok tt /\
  fs_data (snd (downloadArchive dl "2716" archive_path world_after)) = fs_data world_after /\
  http_requests (trace (snd (downloadArchive dl "2716" archive_path world_after))) =
    http_requests (trace world_after).
Proof.
  assert (fs_data world_after !! archive_path = Some archive_bytes) as H1 by (by vm_compute).
  assert (md5sum archive_bytes = "2716") as H2 by (by vm_compute).
  assert (faults world_after (ticks world_after) (OpStat archive_path) = None) as H3
    by (by vm_compute).
  assert (faults world_after (S (ticks world_after)) (OpRead archive_path) = None) as H4
    by (by vm_compute).
  repeat (split; [assumption|]).
  exact (downloadArchive_skips_valid_archive dl "2716" archive_path world_after archive_bytes
           H1 H2 H3 H4).
Defined.

(** *** C1: the endpoint delivers bytes that do not match *)

Lemma Download_integrity_failure_witness :
  fst (expectedHash dl world_corrupt) = Ok "2716" /\
  md5sum garbage = "55797" /\
  fst (Download dl world_corrupt) =
    Err "MD5 of downloaded archive (55797) does not match expected md5 (2716)" /\
  fs_data (snd (Download dl world_corrupt)) !! marker_path = None /\
  fs_data (snd (Download dl world_corrupt)) !! archive_path = Some garbage.
Proof.
  pose proof (Download_integrity_failure dl world_corrupt "2716"
                (mkBody "&{}" garbage None)) as T.
  destruct T as (T1 & _ & _ & T2 & T3).
  - by vm_compute.
  - by vm_compute.
  - done.
  - done.
  - done.
  - done.
  - intros c Hc. vm_compute in Hc. injection Hc as <-. by vm_compute.
  - by vm_compute.
  - by vm_compute.
  - split; [by vm_compute|]. split; [by vm_compute|].
    split; [exact T1|]. split; [|exact T3].
    etrans; [exact T2|by vm_compute].
Defined.

(** *** C2: an entry whose destination is current *)

Lemma walkFn_passes_over_current_entry_witness :
  is_payload city = true /\
  f_readerr city = None /\
  fs_data world_after !! dbpath_of dl city = Some (list_byte_of_string "MMDB1") /\
  md5sum (list_byte_of_string "MMDB1") = md5sum (f_data city) /\
  fst (walkFn dl city [] world_after) = Ok [] /\
  fs_data (snd (walkFn dl city [] world_after)) = fs_data world_after.
Proof.
  assert (is_payload city = true) as H1 by (by vm_compute).
  assert (fs_data world_after !! dbpath_of dl city = Some (list_byte_of_string "MMDB1")) as H3
    by (by vm_compute).
  split; [exact H1|]. split; [reflexivity|]. split; [exact H3|]. split; [reflexivity|].
  destruct (walkFn_passes_over_current_entry dl city [] world_after
              (list_byte_of_string "MMDB1") H1 eq_refl H3 eq_refl) as (T1 & T2 & _);
    [by vm_compute..|]. split; [exact T1|exact T2].
Defined.

(** C2, as stated, fails: run on the files the first call left, extraction
    finds [City.mmdb] in place, leaves it alone, and returns a list without
    it. *)
Lemma extraction_omits_current_entry :
  archiver_open archive_path archive_bytes = Ok ([folder; city; readme; blocks], None) /\
  fs_data world_after !! archive_path = Some archive_bytes /\
  is_payload city = true /\
  fs_data world_after !! dbpath_of dl city = Some (f_data city) /\
  fst (extractArchive dl archive_path world_after) = ([], None) /\
  fs_data (snd (extractArchive dl archive_path world_after)) !! dbpath_of dl city
    = Some (f_data city) /\
  fst (Download dl world_after) = Ok [] /\
  ~ city ∈ fst (fst (extractArchive dl archive_path world_after)).
Proof.
  repeat (split; [by vm_compute|]).
  replace (fst (fst (extractArchive dl archive_path world_after))) with (@nil Entry)
    by (by vm_compute).
  apply not_elem_of_nil.
Qed.

(** *** C3: the marker agrees, the archive does not *)



(** *** C5 *)

Lemma extractArchive_filters_payload_witness :
  fs_data world_fetched !! archive_path = Some archive_bytes /\
  archiver_open archive_path archive_bytes = Ok ([folder; city; readme; blocks], None) /\
  List.filter is_payload [folder; city; readme; blocks] = [city; blocks] /\
  sublist (fst (fst (extractArchive dl archive_path world_fetched)))
    (List.filter is_payload [folder; city; readme; blocks]) /\
  fst (fst (extractArchive dl archive_path world_fetched)) =
    List.filter is_payload [folder; city; readme; blocks] /\
  fs_data (snd (extractArchive dl archive_path world_fetched)) !! dbpath_of dl blocks =
    Some (f_data blocks).
Proof.
  assert (fs_data world_fetched !! archive_path = Some archive_bytes) as H1
    by (vm_compute; reflexivity).
  assert (archiver_open archive_path archive_bytes = Ok ([folder; city; readme; blocks], None))
    as H2 by (vm_compute; reflexivity).
  destruct (extractArchive_filters_payload dl archive_path world_fetched
              archive_bytes [folder; city; readme; blocks] None H1 H2)
    as (_ & _ & T3 & _ & T5).
  destruct T5 as [T5 T6].
  - apply (bool_decide_unpack _). vm_compute. exact I.
  - intros f Hf Hp (c & Hc & _).
    repeat (apply elem_of_cons in Hf as [->|Hf]);
      [..|exact (proj1 (elem_of_nil _) Hf)];
      first [ vm_compute in Hp; discriminate Hp | vm_compute in Hc; discriminate Hc ].
  - vm_compute. reflexivity.
  - split; [exact H1|]. split; [exact H2|]. split; [vm_compute; reflexivity|].
    split; [exact T3|]. split; [exact T5|].
    apply T6; [|vm_compute; reflexivity].
    apply list_elem_of_further, list_elem_of_further, list_elem_of_further, list_elem_of_here.
Defined.

(** *** C8 and C10: the marker *)

Lemma Download_writes_marker_witness :
  fst (expectedHash dl world_marked) = Ok "2716" /\
  fst (downloadArchive dl "2716" archive_path (snd (expectedHash dl world_marked))) = Ok tt /\
  http_requests (trace (snd (Download dl world_marked))) = [geoip_query dl "tgz.md5"] /\
  fs_data world_marked !! marker_path = Some (list_byte_of_string "0000") /\
  fs_data (snd (Download dl world_marked)) !! marker_path = Some (list_byte_of_string "2716").
Proof.
  repeat (split; [by vm_compute|]).
  change marker_path with (md5file_of dl).
  apply (Download_writes_marker dl world_marked "2716"
           (snd (expectedHash dl world_marked))
           (snd (downloadArchive dl "2716" archive_path (snd (expectedHash dl world_marked))))).
  - by vm_compute.
  - by vm_compute.
  - by vm_compute.
  - by vm_compute.
  - intros f _. unfold dbpath_of. by vm_compute.
Defined.

Lemma Download_stops_when_marker_write_fails_witness :
  fst (expectedHash dl world_ro) = Ok "2716" /\
  fst (downloadArchive dl "2716" archive_path (snd (expectedHash dl world_ro))) = Ok tt /\
  fst (Download dl world_ro) = Err "Cannot create MD5 file work/.GeoLite2-City.tgz.md5" /\
  fs_data (snd (Download dl world_ro)) !! archive_path = Some archive_bytes /\
  fs_data (snd (Download dl world_ro)) !! "out/City.mmdb" = None.
Proof.
  set (w1 := snd (expectedHash dl world_ro)).
  set (w2 := snd (downloadArchive dl "2716" archive_path w1)).
  set (w3 := snd (createFile marker_path "2716" w2)).
  destruct (Download_stops_when_marker_write_fails dl world_ro "2716" w1 w2
              "permission denied" w3) as (T1 & T2 & _).
  - by vm_compute.
  - by vm_compute.
  - by vm_compute.
  - split; [by vm_compute|]. split; [by vm_compute|].
    split; [by rewrite T1|]. rewrite T1. simpl.
    split; (etrans; [apply T2; by vm_compute|by vm_compute]).
Defined.

(** *** C6 *)

Lemma Download_again_transfers_and_rewrites_nothing_witness :
  Download dl world0 = (Ok [city; blocks], world_after) /\
  fs_data world_after !! archive_of dl = Some archive_bytes /\
  archiver_open (archive_of dl) archive_bytes = Ok ([folder; city; readme; blocks], None) /\
  fst (Download dl world_after) = Ok [] /\
  fs_data (snd (Download dl world_after)) = fs_data world_after /\
  exists evs, trace (snd (Download dl world_after)) = trace world_after ++ evs /\
    http_requests evs = [geoip_query dl "tgz.md5"] /\
    Forall (eq (md5file_of dl)) (written evs).
Proof.
  assert (Download dl world0 = (Ok [city; blocks], world_after)) as H1 by (by vm_compute).
  assert (fs_data world_after !! archive_of dl = Some archive_bytes) as H2 by (by vm_compute).
  assert (archiver_open (archive_of dl) archive_bytes = Ok ([folder; city; readme; blocks], None))
    as H3 by (by vm_compute).
  destruct (Download_again_transfers_and_rewrites_nothing dl world0 [city; blocks] world_after
              archive_bytes [folder; city; readme; blocks] None H1 H2 H3)
    as (T1 & _ & _ & T2).
  - intros f g Hf Hg Hpf Hpg Hpath.
    repeat (apply elem_of_cons in Hf as [->|Hf]);
      [..|exfalso; exact (proj1 (elem_of_nil _) Hf)];
      (repeat (apply elem_of_cons in Hg as [->|Hg]);
       [..|exfalso; exact (proj1 (elem_of_nil _) Hg)]);
      first [ vm_compute in Hpf; discriminate Hpf
            | vm_compute in Hpg; discriminate Hpg
            | vm_compute in Hpath; discriminate Hpath
            | vm_compute; reflexivity ].
  - by vm_compute.
  - intros f _. unfold dbpath_of. split; by vm_compute.
  - done.
  - destruct T2 as [T2 T3]; [done|]. repeat (split; [assumption|]). exact T1.
Defined.

(** C6, as stated, fails on an archive two entries of which have the same
    base name and different bytes: every call writes the destination
    twice. *)
Lemma second_call_rewrites_twins :
  archiver_open archive_path twins = Ok ([x1; x2], None) /\
  fst (Download dl world_twins) = Ok [x1; x2] /\
  fs_data world_twins_after !! "out/x.csv" = Some (list_byte_of_string "2") /\
  fst (Download dl world_twins_after) = Ok [x1; x2] /\
  drop (length (trace world_twins_after)) (trace (snd (Download dl world_twins_after))) =
    [EvHttp (geoip_query dl "tgz.md5");
     EvSys (OpStat archive_path); EvSys (OpRead archive_path);
     EvLog Debug [("edition_id", "GeoLite2-City"); ("hash", digest twins)]
       "Archive already downloaded and valid. Skipping download";
     EvSys (OpCreate marker_path); EvSys (OpWrite marker_path);
     EvSys (OpRead archive_path);
     EvSys (OpStat "out/x.csv"); EvSys (OpRead "out/x.csv");
     EvLog Debug (sublog dl x1 (digest (f_data x1))) "Extracting database";
     EvSys (OpCreate "out/x.csv"); EvSys (OpWrite "out/x.csv"); EvSys (OpChtimes "out/x.csv");
     EvSys (OpStat "out/x.csv"); EvSys (OpRead "out/x.csv");
     EvLog Debug (sublog dl x2 (digest (f_data x2))) "Extracting database";
     EvSys (OpCreate "out/x.csv"); EvSys (OpWrite "out/x.csv"); EvSys (OpChtimes "out/x.csv")] /\
  ~ Forall (eq marker_path)
      (written (drop (length (trace world_twins_after))
                  (trace (snd (Download dl world_twins_after))))).
Proof.
  repeat (split; [by vm_compute|]).
  intros HF. vm_compute in HF.
  apply Forall_cons in HF as [_ HF]. apply Forall_cons in HF as [_ HF].
  apply Forall_cons in HF as [HF _]. discriminate HF.
Qed.

(** The proviso on [os.Stat] is needed: here the first call succeeds and
    the one error the system ever reports is on the [os.Stat] of the
    archive in the second call, which takes the archive for missing,
    requests it and writes it again. *)
Lemma stat_error_transfers_again :
  fst (Download dl world_flaky) = Ok [city; blocks] /\
  consistent dl [folder; city; readme; blocks] /\
  fst (Download dl world_flaky_after) = Ok [] /\
  http_requests (drop (length (trace world_flaky_after))
                   (trace (snd (Download dl world_flaky_after)))) =
    [geoip_query dl "tgz.md5"; geoip_query dl "tgz"] /\
  written (drop (length (trace world_flaky_after))
             (trace (snd (Download dl world_flaky_after)))) =
    [archive_path; archive_path; marker_path; marker_path].
Proof.
  split; [vm_compute; reflexivity|]. split; [|repeat split; vm_compute; reflexivity].
  intros f g Hf Hg Hpf Hpg Hpath.
  repeat (apply elem_of_cons in Hf as [->|Hf]);
    [..|exfalso; exact (proj1 (elem_of_nil _) Hf)];
    (repeat (apply elem_of_cons in Hg as [->|Hg]);
     [..|exfalso; exact (proj1 (elem_of_nil _) Hg)]);
    first [ vm_compute in Hpf; discriminate Hpf
          | vm_compute in Hpg; discriminate Hpg
          | vm_compute in Hpath; discriminate Hpath
          | vm_compute; reflexivity ].
Qed.

(** *** C7 *)

(** C7, at the failing input: on a 401 whose body reads "Invalid license
    key", the error of either request holds the status code, and in place
    of the body the rendering of the reader; it is the same error whatever
    the body reads. *)
Theorem status_error_lacks_body :
  (forall data,
     fst (Download dl (world_of (refusing data))) =
       Err ("Cannot get archive MD5 hash: Received invalid status code 401: " +:+ reader_repr)) /\
  (forall data,
     fst (Download dl (world_of (refusing_archive data))) =
       Err ("Received invalid status code 401: " +:+ reader_repr)) /\
  occurs "401" ("Received invalid status code 401: " +:+ reader_repr) = true /\
  occurs "Invalid license key"
    ("Cannot get archive MD5 hash: Received invalid status code 401: " +:+ reader_repr) = false /\
  ~ contains "Invalid license key" ("Received invalid status code 401: " +:+ reader_repr).
Proof.
  split; [intros; by vm_compute|]. split; [intros; by vm_compute|].
  split; [by vm_compute|]. split; [by vm_compute|].
  intros Hc. apply contains_occurs in Hc. by vm_compute in Hc.
Qed.

(** *** C9 *)

Lemma Download_survives_chtimes_failure_witness :
  faults world_nochtimes 0 (OpCreate "out/City.mmdb") = None /\
  faults world_nochtimes 1 (OpWrite "out/City.mmdb") = None /\
  faults world_nochtimes 2 (OpChtimes "out/City.mmdb") = Some "operation not permitted" /\
  fst (extractEntry dl city [] "out/City.mmdb" (f_data city) [] world_nochtimes) = Ok [city] /\
  fst (Download dl world_nochtimes) = fst (Download dl (calm world_nochtimes)) /\
  fst (Download dl world_nochtimes) = Ok [city; blocks] /\
  fs_mtime (snd (Download dl world_nochtimes)) = ∅.
Proof.
  split; [reflexivity|]. split; [reflexivity|]. split; [reflexivity|].
  destruct Download_survives_chtimes_failure as [T1 T2].
  split.
  - exact (proj1 (T2 dl city [] "out/City.mmdb" (f_data city) [] world_nochtimes
                    "operation not permitted" eq_refl eq_refl eq_refl)).
  - split; [exact (proj1 (T1 dl world_nochtimes))|]. split; by vm_compute.
Defined.

(** *** Further examples *)

Lemma expectedHash_returns_body_verbatim_witness :
  fst (expectedHash dl world0) = Ok "2716" /\
  exists body,
    remote world0 (geoip_query dl "tgz.md5") = HttpResp StatusOK body /\
    list_byte_of_string "2716" = body_data body /\
    ticks (snd (expectedHash dl world0)) = 0%nat.
Proof.
  assert (fst (expectedHash dl world0) = Ok "2716") as H1 by (by vm_compute).
  split; [exact H1|].
  destruct (expectedHash_returns_body_verbatim dl world0 "2716" H1)
    as (body & T1 & _ & _ & T2 & _ & T3 & _).
  exists body. split; [exact T1|]. split; [exact T2|exact T3].
Defined.

Lemma Download_stops_without_checksum_witness :
  fst (expectedHash dl (world_of (refusing [])))
    = Err (invalid_status 401 (mkBody reader_repr [] None)) /\
  fst (Download dl (world_of (refusing []))) =
    Err (Wrap (invalid_status 401 (mkBody reader_repr [] None)) "Cannot get archive MD5 hash") /\
  ticks (snd (Download dl (world_of (refusing [])))) = 0%nat.
Proof.
  assert (fst (expectedHash dl (world_of (refusing [])))
            = Err (invalid_status 401 (mkBody reader_repr [] None))) as H1 by (by vm_compute).
  split; [exact H1|].
  destruct (Download_stops_without_checksum dl (world_of (refusing [])) _ H1) as (T1 & T2 & _).
  split; [exact T1|exact T2].
Defined.

Lemma downloadArchive_touches_archive_only_witness :
  marker_path <> archive_path /\
  fs_data (snd (downloadArchive dl "2716" archive_path world_stale)) !! marker_path =
    fs_data world_stale !! marker_path.
Proof.
  assert (marker_path <> archive_path) as H1 by (by vm_compute).
  split; [exact H1|].
  exact (proj1 (downloadArchive_touches_archive_only dl "2716" archive_path world_stale
                  marker_path H1)).
Defined.

Lemma downloadArchive_refused_keeps_files_witness :
  remote world_refused (geoip_query dl "tgz") =
    HttpResp 401 (mkBody reader_repr (list_byte_of_string "Invalid license key") None) /\
  fs_data (snd (downloadArchive dl "2716" archive_path world_refused)) = fs_data world_refused.
Proof.
  split; [by vm_compute|].
  apply (downloadArchive_refused_keeps_files dl "2716" archive_path world_refused).
  intros body Hb. vm_compute in Hb. discriminate Hb.
Defined.

Lemma downloadArchive_interrupted_transfer_witness :
  remote world_broken (geoip_query dl "tgz") =
    HttpResp StatusOK (mkBody "&{}" (list_byte_of_string "GeoLi") (Some "unexpected EOF")) /\
  fst (downloadArchive dl "2716" archive_path world_broken) =
    Err "Cannot download archive: unexpected EOF" /\
  fs_data (snd (downloadArchive dl "2716" archive_path world_broken)) !! archive_path =
    Some (list_byte_of_string "GeoLi").
Proof.
  assert (remote world_broken (geoip_query dl "tgz") =
    HttpResp StatusOK (mkBody "&{}" (list_byte_of_string "GeoLi") (Some "unexpected EOF")))
    as H1 by (by vm_compute).
  split; [exact H1|].
  destruct (downloadArchive_interrupted_transfer dl "2716" archive_path world_broken
              (mkBody "&{}" (list_byte_of_string "GeoLi") (Some "unexpected EOF"))
              "unexpected EOF") as [T1 T2].
  - reflexivity.
  - exact H1.
  - reflexivity.
  - reflexivity.
  - reflexivity.
  - reflexivity.
  - intros c Hc. vm_compute in Hc. injection Hc as <-. by vm_compute.
  - split; [exact T1|]. rewrite T2. apply lookup_insert_eq.
Defined.

Lemma Download_succeeds_on_checked_bytes_only_witness :
  Download dl world0 = (Ok [city; blocks], world_after) /\
  exists h c, fst (expectedHash dl world0) = Ok h /\ md5sum c = h.
Proof.
  assert (Download dl world0 = (Ok [city; blocks], world_after)) as H1 by (by vm_compute).
  split; [exact H1|].
  destruct (Download_succeeds_on_checked_bytes_only dl world0 _ _ H1) as (h & c & T1 & T2 & _).
  exists h, c. split; [exact T1|exact T2].
Defined.

Lemma currentHash_after_Download_witness :
  fst (expectedHash dl world_marked) = Ok "2716" /\
  fst (currentHash dl world_marked) = Ok "0000" /\
  fst (currentHash dl (snd (Download dl world_marked))) = Ok "2716".
Proof.
  split; [by vm_compute|]. split; [by vm_compute|].
  apply (currentHash_after_Download dl world_marked "2716"
           (snd (expectedHash dl world_marked))
           (snd (downloadArchive dl "2716" archive_path (snd (expectedHash dl world_marked))))).
  - by vm_compute.
  - by vm_compute.
  - by vm_compute.
  - by vm_compute.
  - intros f _. unfold dbpath_of. by vm_compute.
  - by vm_compute.
  - by vm_compute.
Defined.

Lemma extractArchive_touches_destinations_only_witness :
  fs_data world_fetched !! archive_path = Some archive_bytes /\
  archiver_open archive_path archive_bytes = Ok ([folder; city; readme; blocks], None) /\
  fs_data (snd (extractArchive dl archive_path world_fetched)) !! archive_path =
    fs_data world_fetched !! archive_path.
Proof.
  assert (fs_data world_fetched !! archive_path = Some archive_bytes) as H1 by (by vm_compute).
  assert (archiver_open archive_path archive_bytes = Ok ([folder; city; readme; blocks], None))
    as H2 by (by vm_compute).
  split; [exact H1|]. split; [exact H2|].
  apply (extractArchive_touches_destinations_only dl archive_path world_fetched _ _ _
           archive_path H1 H2).
  intros f _ _. unfold dbpath_of. by vm_compute.
Defined.

Lemma demo_consistent : consistent dl [folder; city; readme; blocks].
Proof.
  intros f g Hf Hg Hpf Hpg Hpath.
  repeat (apply elem_of_cons in Hf as [->|Hf]);
    [..|exfalso; exact (proj1 (elem_of_nil _) Hf)];
    (repeat (apply elem_of_cons in Hg as [->|Hg]);
     [..|exfalso; exact (proj1 (elem_of_nil _) Hg)]);
    first [ vm_compute in Hpf; discriminate Hpf
          | vm_compute in Hpg; discriminate Hpg
          | vm_compute in Hpath; discriminate Hpath
          | vm_compute; reflexivity ].
Qed.

Lemma extractArchive_ok_makes_current_witness :
  extractArchive dl archive_path world_fetched =
    (([city; blocks], None), snd (extractArchive dl archive_path world_fetched)) /\
  current dl city (snd (extractArchive dl archive_path world_fetched)) /\
  current dl blocks (snd (extractArchive dl archive_path world_fetched)).
Proof.
  assert (extractArchive dl archive_path world_fetched =
    (([city; blocks], None), snd (extractArchive dl archive_path world_fetched))) as H1
    by (by vm_compute).
  split; [exact H1|].
  destruct (extractArchive_ok_makes_current dl archive_path world_fetched _ _
              archive_bytes [folder; city; readme; blocks] None H1) as [_ T].
  - by vm_compute.
  - by vm_compute.
  - exact demo_consistent.
  - split.
    + apply T; [repeat constructor|by vm_compute].
    + apply T; [repeat constructor|by vm_compute].
Defined.

Lemma walk_stops_at_first_error_witness :
  walk_files (walkFn dl) [folder; city; readme] [] world_full =
    (([city], None), snd (walk_files (walkFn dl) [folder; city; readme] [] world_full)) /\
  fst (walk_files (walkFn dl) ([folder; city; readme] ++ [blocks]) [] world_full) =
    ([city], Some "walking blocks.csv: Cannot create database file blocks.csv: no space left on device") /\
  fs_data (snd (walk_files (walkFn dl) ([folder; city; readme] ++ [blocks]) [] world_full))
    !! "out/City.mmdb" = Some (list_byte_of_string "MMDB1") /\
  fst (Download dl world_full) =
    Err "walking blocks.csv: Cannot create database file blocks.csv: no space left on device".
Proof.
  set (w1 := snd (walk_files (walkFn dl) [folder; city; readme] [] world_full)).
  assert (walk_files (walkFn dl) [folder; city; readme] [] world_full = (([city], None), w1))
    as H1 by (by vm_compute).
  split; [exact H1|].
  destruct (walk_stops_at_first_error dl [folder; city; readme] blocks [] [] world_full
              [city] w1 "Cannot create database file blocks.csv: no space left on device"
              (snd (walkFn dl blocks [city] w1)) H1) as (T1 & _ & T2).
  - by vm_compute.
  - rewrite T1. split; [by vm_compute|]. split; [|by vm_compute].
    simpl. rewrite T2; by vm_compute.
Defined.

Lemma walkFn_reports_written_entry_witness :
  walkFn dl city [] world_fetched = (Ok [city], snd (walkFn dl city [] world_fetched)) /\
  fs_data (snd (walkFn dl city [] world_fetched)) !! dbpath_of dl city = Some (f_data city) /\
  fs_mtime (snd (walkFn dl city [] world_fetched)) !! dbpath_of dl city = Some 1577836800.
Proof.
  assert (walkFn dl city [] world_fetched = (Ok [city], snd (walkFn dl city [] world_fetched)))
    as H1 by (by vm_compute).
  split; [exact H1|].
  destruct (walkFn_reports_written_entry dl city [] world_fetched _ _ H1) as (_ & _ & T1 & T2);
    [discriminate|].
  split; [exact T1|]. apply T2. done.
Defined.

Lemma payload_by_name_ending_witness :
  is_payload city = true /\ f_Name city = "City" +:+ ".mmdb" /\
  is_payload folder = false /\
  walkFn dl folder [] world_fetched = (Ok [], world_fetched) /\
  walkFn dl city [] world_fetched <> (Ok [], world_fetched) /\
  exists evs, trace (snd (walkFn dl city [] world_fetched)) =
              trace world_fetched ++ EvSys (OpStat (dbpath_of dl city)) :: evs.
Proof.
  assert (f_IsDir city = false) as Hd by reflexivity.
  assert (exists stem, f_Name city = stem +:+ ".csv" \/ f_Name city = stem +:+ ".mmdb") as Hn
    by (exists "City"; right; reflexivity).
  split.
  - apply (proj2 (proj1 (payload_by_name_ending city))). split; [exact Hd|exact Hn].
  - split; [reflexivity|]. split; [vm_compute; reflexivity|].
    split; [apply (proj1 (proj2 (payload_by_name_ending folder))); vm_compute; reflexivity|].
    destruct (proj2 (proj2 (payload_by_name_ending city)) dl [] world_fetched Hd Hn)
      as [T1 [(e & He & _)|(_ & T2)]]; [vm_compute in He; discriminate He|].
    split; [exact T1|exact T2].
Defined.

Lemma Download_sends_at_most_two_requests_witness :
  http_requests (trace (snd (Download dl world0))) =
    [geoip_query dl "tgz.md5"; geoip_query dl "tgz"] /\
  exists l, http_requests (trace (snd (Download dl world0))) = http_requests (trace world0) ++ l /\
    l <> [].
Proof.
  split; [by vm_compute|].
  destruct (Download_sends_at_most_two_requests dl world0) as (l & T1 & _ & T2).
  exists l. split; [exact T1|]. apply (T2 [city; blocks]). by vm_compute.
Defined.

Lemma Download_ok_state_witness :
  Download dl world0 = (Ok [city; blocks], world_after) /\
  exists h c files,
    fs_data world_after !! archive_of dl = Some c /\ md5sum c = h /\
    fs_data world_after !! md5file_of dl = Some (list_byte_of_string h) /\
    sublist [city; blocks] (List.filter is_payload files).
Proof.
  assert (Download dl world0 = (Ok [city; blocks], world_after)) as H1 by (by vm_compute).
  split; [exact H1|].
  destruct (Download_ok_state dl world0 _ _ H1) as (h & c & files & _ & T1 & T2 & T3 & _ & T4 & _).
  - by vm_compute.
  - intros f _. unfold dbpath_of. split; by vm_compute.
  - exists h, c, files. split; [exact T1|]. split; [exact T2|]. split; [exact T3|exact T4].
Defined.
